(** * EE499-Wearable, homework2/stats_functions.py: the statistics library

    A shallow embedding of [stats_functions.py] and the proofs of its
    specification.

    Numbers.  The library is embedded twice.

    - The exact semantics (the definitions at the top level).  A float (and
      an int used as a sample) is a real number of [R], a size (a [len], an
      entry of [n_list], the [n1]/[n2] of [t_test]) is an integer of [Z] that
      enters real arithmetic through [IZR].  A function of this embedding
      returns the real-valued quantity of which the Python function returns
      the binary64 evaluation; rounding, infinities and NaN are outside it.
      The theorems that say which quantity a function computes, which error
      it raises on an input of a given shape, or which sign a result has, are
      stated over this embedding.

    - The binary64 semantics (module [Binary64]).  The mean functions and
      [one_way_anova] once more, with the floating-point operations of
      CPython on IEEE 754 binary64 numbers, each rounded to nearest.  These
      definitions compute, and they are used where a statement compares two
      outputs of the program exactly: an equality or an order that holds of
      the exact quantities need not hold of the floats returned.

    Failures.  A Python exception is a value of [PyError]; every function
    returns a [result].  [a / b] raises [ZeroDivisionError] exactly when
    [b = 0], [math.sqrt x] raises [ValueError] exactly when [x < 0], an
    arithmetic operation on [None] raises [TypeError], and an index out of
    range raises [IndexError].  The specification's "DomainError" is Python's
    [ZeroDivisionError].

    Oracles.  [scipy.stats.t.cdf] and [scipy.stats.f.cdf] are parameters
    ([cdf_t], [cdf_f]) of the functions that call them. *)

From Stdlib Require Import Floats.
From Stdlib Require Uint63.
From Stdlib Require Import String Reals Lra Lia ZArith List Permutation.
Import ListNotations.

Open Scope R_scope.

(** ** Python's failures *)

Inductive PyError : Set :=
  | ZeroDivisionError
  | ValueError
  | TypeError
  | IndexError.

Inductive result (A : Type) : Type :=
  | Ok (a : A)
  | Err (e : PyError).

Arguments Ok {A} a.
Arguments Err {A} e.

Definition bind {A B : Type} (m : result A) (k : A -> result B) : result B :=
  match m with
  | Ok a => k a
  | Err e => Err e
  end.

Notation "x <- m ;; k" := (bind m (fun x => k))
  (at level 61, m at next level, right associativity).
Notation "' pat <- m ;; k" := (bind m (fun x => match x with pat => k end))
  (at level 61, pat pattern, m at next level, right associativity).

(** A [for] loop whose body may raise: the state is threaded from left to
    right and the first failure ends the loop. *)
Fixpoint for_each {S X : Type} (body : S -> X -> result S) (xs : list X) (s : S)
  : result S :=
  match xs with
  | [] => Ok s
  | x :: xs' => s' <- body s x ;; for_each body xs' s'
  end.

(** A list comprehension whose element expression may raise. *)
Fixpoint map_result {X Y : Type} (f : X -> result Y) (xs : list X) : result (list Y) :=
  match xs with
  | [] => Ok []
  | x :: xs' => y <- f x ;; ys <- map_result f xs' ;; Ok (y :: ys)
  end.

(** ** Python's arithmetic *)

(** [a / b] *)
Definition py_div (a b : R) : result R :=
  if Req_dec_T b 0 then Err ZeroDivisionError else Ok (a / b).

(** [math.sqrt(x)] *)
Definition math_sqrt (x : R) : result R :=
  if Rlt_dec x 0 then Err ValueError else Ok (sqrt x).

(** [len(xs)] *)
Definition len {X : Type} (xs : list X) : Z := Z.of_nat (List.length xs).

(** [xs[i]] for [i] in [range(...)] (never negative) *)
Definition index {X : Type} (xs : list X) (i : nat) : result X :=
  match nth_error xs i with
  | Some x => Ok x
  | None => Err IndexError
  end.

(** An optional argument used in arithmetic. *)
Definition arg {X : Type} (o : option X) : result X :=
  match o with
  | Some x => Ok x
  | None => Err TypeError
  end.

(** ** Mean functions *)

(** [arithmetic_mean], lines 9-16. *)
Definition arithmetic_mean (data : list R) : result R :=
  let total := fold_left (fun total x => total + x) data 0 in
  py_div total (IZR (len data)).

(** The loop body of [harmonic_mean], lines 27-30; the state is
    [(reciprocal_sum, count)]. *)
Definition harmonic_step (st : R * Z) (x : R) : result (R * Z) :=
  let '(reciprocal_sum, count) := st in
  if Rlt_dec 0 x then
    r <- py_div 1 x ;;
    Ok (reciprocal_sum + r, (count + 1)%Z)
  else Ok (reciprocal_sum, count).

(** [harmonic_mean], lines 19-35. *)
Definition harmonic_mean (data : list R) : result R :=
  '(reciprocal_sum, count) <- for_each harmonic_step data (0, 0%Z) ;;
  if (count =? 0)%Z then Ok 0
  else py_div (IZR count) reciprocal_sum.

(** ** Standard deviation *)

(** [standard_deviation], lines 41-52. *)
Definition standard_deviation (data : list R) : result R :=
  mean <- arithmetic_mean data ;;
  let squared_diff_sum :=
    fold_left (fun acc x => acc + (x - mean) ^ 2) data 0 in
  variance <- py_div squared_diff_sum (IZR (len data)) ;;
  math_sqrt variance.

(** ** Pooled standard deviation *)

(** [pooled_std], lines 58-70; [zip] stops at the shorter list, as [combine]
    does. *)
Definition pooled_std (std_list : list R) (n_list : list Z) : result R :=
  let '(numerator, denominator) :=
    fold_left
      (fun (st : R * Z) (sn : R * Z) =>
         let '(numerator, denominator) := st in
         let '(s, n) := sn in
         (numerator + IZR (n - 1) * s ^ 2, (denominator + (n - 1))%Z))
      (combine std_list n_list) (0, 0%Z) in
  q <- py_div numerator (IZR denominator) ;;
  math_sqrt q.

(** ** Independent t-test *)

(** Lines 101-112 of [t_test]: the statistic from the summary of two groups. *)
Definition t_test_summary (cdf_t : R -> Z -> R)
    (mu1 mu2 sigma1 sigma2 : option R) (n1 n2 : option Z) : result (R * R) :=
  n1 <- arg n1 ;;
  n2 <- arg n2 ;;
  let df := (n1 + n2 - 2)%Z in
  sigma1 <- arg sigma1 ;;
  sigma2 <- arg sigma2 ;;
  q <- py_div (IZR (n1 - 1) * sigma1 ^ 2 + IZR (n2 - 1) * sigma2 ^ 2) (IZR df) ;;
  sp <- math_sqrt q ;;
  mu1 <- arg mu1 ;;
  mu2 <- arg mu2 ;;
  r1 <- py_div 1 (IZR n1) ;;
  r2 <- py_div 1 (IZR n2) ;;
  s <- math_sqrt (r1 + r2) ;;
  t_value <- py_div (mu1 - mu2) (sp * s) ;;
  let p_value := 2 * (1 - cdf_t (Rabs t_value) df) in
  Ok (t_value, p_value).

(** [t_test], lines 76-112.  With both [data1] and [data2] given, lines 87-99
    overwrite the six summary arguments before the common tail runs. *)
Definition t_test (cdf_t : R -> Z -> R)
    (data1 data2 : option (list R))
    (mu1 mu2 sigma1 sigma2 : option R) (n1 n2 : option Z)
    (mean_type : string) : result (R * R) :=
  match data1, data2 with
  | Some data1, Some data2 =>
      '(mu1, mu2) <-
        (if String.eqb mean_type "harmonic" then
           mu1 <- harmonic_mean data1 ;;
           mu2 <- harmonic_mean data2 ;;
           Ok (mu1, mu2)
         else
           mu1 <- arithmetic_mean data1 ;;
           mu2 <- arithmetic_mean data2 ;;
           Ok (mu1, mu2)) ;;
      sigma1 <- standard_deviation data1 ;;
      sigma2 <- standard_deviation data2 ;;
      let n1 := len data1 in
      let n2 := len data2 in
      t_test_summary cdf_t (Some mu1) (Some mu2) (Some sigma1) (Some sigma2)
        (Some n1) (Some n2)
  | _, _ => t_test_summary cdf_t mu1 mu2 sigma1 sigma2 n1 n2
  end.

(** ** One-way ANOVA *)

(** The body of the loop over the groups, lines 133-142; the state is
    [(ss_between, ss_within)]. *)
Definition anova_step (overall_mean : R) (st : R * R) (group : list R)
  : result (R * R) :=
  let '(ss_between, ss_within) := st in
  group_mean <- arithmetic_mean group ;;
  let n := len group in
  let ss_between := ss_between + IZR n * (group_mean - overall_mean) ^ 2 in
  let ss_within :=
    fold_left (fun acc x => acc + (x - group_mean) ^ 2) group ss_within in
  Ok (ss_between, ss_within).

(** [one_way_anova], lines 118-154. *)
Definition one_way_anova (cdf_f : R -> Z -> Z -> R) (groups : list (list R))
  : result (R * R) :=
  let all_data := fold_left (fun all_data group => all_data ++ group) groups [] in
  overall_mean <- arithmetic_mean all_data ;;
  '(ss_between, ss_within) <- for_each (anova_step overall_mean) groups (0, 0) ;;
  let df_between := (len groups - 1)%Z in
  let df_within := (len all_data - len groups)%Z in
  ms_between <- py_div ss_between (IZR df_between) ;;
  ms_within <- py_div ss_within (IZR df_within) ;;
  F <- py_div ms_between ms_within ;;
  let p_value := 1 - cdf_f F df_between df_within in
  Ok (F, p_value).

(** ** Repeated measures ANOVA *)

(** [data_matrix[i][j]] *)
Definition cell (data_matrix : list (list R)) (i j : nat) : result R :=
  row <- index data_matrix i ;;
  index row j.

(** [repeated_measures_anova], lines 160-208; [range(n)] is [seq 0 n]. *)
Definition repeated_measures_anova (cdf_f : R -> Z -> Z -> R)
    (data_matrix : list (list R)) : result (R * R) :=
  let n := List.length data_matrix in
  row0 <- index data_matrix 0 ;;
  let k := List.length row0 in
  let all_values := flat_map (fun row => row) data_matrix in
  overall_mean <- arithmetic_mean all_values ;;
  subject_means <- map_result arithmetic_mean data_matrix ;;
  condition_means <-
    map_result
      (fun j =>
         col <- map_result (fun i => cell data_matrix i j) (seq 0 n) ;;
         arithmetic_mean col)
      (seq 0 k) ;;
  ss_subjects <-
    for_each
      (fun ss_subjects i =>
         for_each
           (fun ss_subjects j =>
              x <- cell data_matrix i j ;;
              m <- index subject_means i ;;
              Ok (ss_subjects + (x - m) ^ 2))
           (seq 0 k) ss_subjects)
      (seq 0 n) 0 ;;
  ss_conditions <-
    for_each
      (fun ss_conditions j =>
         c <- index condition_means j ;;
         Ok (ss_conditions + IZR (Z.of_nat n) * (c - overall_mean) ^ 2))
      (seq 0 k) 0 ;;
  let ss_error := ss_subjects - ss_conditions in
  let df_conditions := (Z.of_nat k - 1)%Z in
  let df_subjects := (Z.of_nat n - 1)%Z in
  let df_error := (df_conditions * df_subjects)%Z in
  ms_conditions <- py_div ss_conditions (IZR df_conditions) ;;
  ms_error <- py_div ss_error (IZR df_error) ;;
  F <- py_div ms_conditions ms_error ;;
  let p_value := 1 - cdf_f F df_conditions df_error in
  Ok (F, p_value).

(** ** The binary64 semantics

    The mean functions and [one_way_anova] as CPython evaluates them on
    floats: every [+], [-], [*] and [/] is the IEEE 754 binary64 operation,
    rounded to nearest.  A sample is a binary64 number (a Python int used as
    a sample is one, below 2^53, and the operations on it give the same
    floats).  A size stays an integer of [Z] and enters the arithmetic
    through [float_of_Z], as Python converts an int operand of a float
    operation.  [x ** 2] is the rounded square [x * x].  A division raises
    [ZeroDivisionError] when the divisor compares equal to 0. *)

Module Binary64.

Local Open Scope float_scope.

(** The conversion of an int operand (below 2^63 in absolute value). *)
Definition float_of_Z (z : Z) : float :=
  match z with
  | Z0 => 0
  | Zpos _ => of_uint63 (Uint63.of_Z z)
  | Zneg p => - of_uint63 (Uint63.of_Z (Zpos p))
  end.

(** [a / b] *)
Definition py_div (a b : float) : result float :=
  if b =? 0 then Err ZeroDivisionError else Ok (a / b).

(** [arithmetic_mean], lines 9-16. *)
Definition arithmetic_mean (data : list float) : result float :=
  let total := fold_left (fun total x => total + x) data 0 in
  py_div total (float_of_Z (len data)).

(** The loop body of [harmonic_mean], lines 27-30. *)
Definition harmonic_step (st : float * Z) (x : float) : result (float * Z) :=
  let '(reciprocal_sum, count) := st in
  if 0 <? x then
    r <- py_div 1 x ;;
    Ok (reciprocal_sum + r, (count + 1)%Z)
  else Ok (reciprocal_sum, count).

(** [harmonic_mean], lines 19-35. *)
Definition harmonic_mean (data : list float) : result float :=
  '(reciprocal_sum, count) <- for_each harmonic_step data (0, 0%Z) ;;
  if (count =? 0)%Z then Ok 0
  else py_div (float_of_Z count) reciprocal_sum.

(** The body of the loop over the groups, lines 133-142. *)
Definition anova_step (overall_mean : float) (st : float * float)
    (group : list float) : result (float * float) :=
  let '(ss_between, ss_within) := st in
  group_mean <- arithmetic_mean group ;;
  let n := len group in
  let d := group_mean - overall_mean in
  let ss_between := ss_between + float_of_Z n * (d * d) in
  let ss_within :=
    fold_left (fun acc x => acc + (x - group_mean) * (x - group_mean))
      group ss_within in
  Ok (ss_between, ss_within).

(** [one_way_anova], lines 118-154. *)
Definition one_way_anova (cdf_f : float -> Z -> Z -> float)
    (groups : list (list float)) : result (float * float) :=
  let all_data := fold_left (fun all_data group => all_data ++ group) groups [] in
  overall_mean <- arithmetic_mean all_data ;;
  '(ss_between, ss_within) <- for_each (anova_step overall_mean) groups (0, 0) ;;
  let df_between := (len groups - 1)%Z in
  let df_within := (len all_data - len groups)%Z in
  ms_between <- py_div ss_between (float_of_Z df_between) ;;
  ms_within <- py_div ss_within (float_of_Z df_within) ;;
  F <- py_div ms_between ms_within ;;
  let p_value := 1 - cdf_f F df_between df_within in
  Ok (F, p_value).

End Binary64.

(** ** The specification's vocabulary

    The definitions below follow the words of the specification, not the
    code: sums are sums over lists, means are quotients of sums, and nothing
    can fail.  The theorems relate the functions above to them. *)

(** The sum of a sequence. *)
Definition Rsum (xs : list R) : R := fold_right Rplus 0 xs.

(** The sum of the integers of a sequence. *)
Definition Zsum (ns : list Z) : Z := fold_right Z.add 0%Z ns.

(** The count of a sequence, as a real number. *)
Definition size {X : Type} (xs : list X) : R := INR (List.length xs).

(** "sum of all elements divided by count" *)
Definition mean_of (xs : list R) : R := Rsum xs / size xs.

(** "squared deviations from the arithmetic mean" about a centre [m] *)
Definition sq_dev (m : R) (xs : list R) : R :=
  Rsum (map (fun x => (x - m) ^ 2) xs).

(** "squared deviations from the arithmetic mean, divided by the full count
    n, then square-rooted" *)
Definition population_std (xs : list R) : R :=
  sqrt (sq_dev (mean_of xs) xs / size xs).

(** "strictly positive" as a test on a sample. *)
Definition positive (x : R) : bool := if Rlt_dec 0 x then true else false.

(** "count of strictly-positive elements divided by the sum of their
    reciprocals" *)
Definition harmonic_of (xs : list R) : R :=
  let pos := filter positive xs in
  size pos / Rsum (map Rinv pos).

(** "all elements equal" *)
Definition all_equal (xs : list R) : Prop :=
  forall a b, In a xs -> In b xs -> a = b.

(** Pooled standard deviation: "the sum of (n_i - 1) over all groups". *)
Definition total_df (n_list : list Z) : Z :=
  Zsum (map (fun n => (n - 1)%Z) n_list).

(** Pooled standard deviation: the sum of (n_i - 1) s_i^2 over the groups. *)
Definition weighted_squares (std_list : list R) (n_list : list Z) : R :=
  Rsum (map (fun sn : R * Z => (IZR (snd sn) - 1) * fst sn ^ 2)
            (combine std_list n_list)).

(** t-test: "df = n1+n2-2". *)
Definition t_df (n1 n2 : Z) : Z := (n1 + n2 - 2)%Z.

(** t-test: the sum (n1-1) sigma1^2 + (n2-1) sigma2^2 under the root of sp. *)
Definition pooled_squares (sigma1 sigma2 : R) (n1 n2 : Z) : R :=
  (IZR n1 - 1) * sigma1 ^ 2 + (IZR n2 - 1) * sigma2 ^ 2.

(** t-test: "sp = sqrt(((n1-1) sigma1^2 + (n2-1) sigma2^2)/df)". *)
Definition pooled_se (sigma1 sigma2 : R) (n1 n2 : Z) : R :=
  sqrt (pooled_squares sigma1 sigma2 n1 n2 / IZR (t_df n1 n2)).

(** t-test: "t = (mu1-mu2) / (sp sqrt(1/n1+1/n2))". *)
Definition t_statistic (mu1 mu2 sigma1 sigma2 : R) (n1 n2 : Z) : R :=
  (mu1 - mu2) / (pooled_se sigma1 sigma2 n1 n2 * sqrt (1 / IZR n1 + 1 / IZR n2)).

(** t-test: "two-tailed p-value = 2 (1 - CDF_t(|t|, df))". *)
Definition two_tailed_p (cdf_t : R -> Z -> R) (t : R) (df : Z) : R :=
  2 * (1 - cdf_t (Rabs t) df).

(** The mean that [mean_type] selects. *)
Definition selected_mean (mean_type : string) : list R -> result R :=
  if String.eqb mean_type "harmonic" then harmonic_mean else arithmetic_mean.

(** One-way ANOVA: "SSB = sum of n_i (mean_i - overallMean)^2". *)
Definition SSB (groups : list (list R)) : R :=
  Rsum (map (fun g => size g * (mean_of g - mean_of (concat groups)) ^ 2) groups).

(** One-way ANOVA and repeated measures: the sum over the rows of the squared
    deviations of each cell from the mean of its row. *)
Definition SSW (groups : list (list R)) : R :=
  Rsum (map (fun g => sq_dev (mean_of g) g) groups).

(** One-way ANOVA: "df_between = (#groups - 1)". *)
Definition df_between (groups : list (list R)) : Z := (len groups - 1)%Z.

(** One-way ANOVA: "df_within = (total N - #groups)". *)
Definition df_within (groups : list (list R)) : Z :=
  (len (concat groups) - len groups)%Z.

(** One-way ANOVA: "F = (SSB/df_between) / (SSW/df_within)". *)
Definition anova_F (groups : list (list R)) : R :=
  (SSB groups / IZR (df_between groups)) / (SSW groups / IZR (df_within groups)).

(** Two groups: the squared deviations of both groups from their own means,
    added up. *)
Definition pooled_sq_dev (data1 data2 : list R) : R :=
  sq_dev (mean_of data1) data1 + sq_dev (mean_of data2) data2.

(** Two groups of the same size n:
    n (mean1 - mean2) / sqrt(pooled squared deviations). *)
Definition two_groups_t (data1 data2 : list R) : R :=
  size data1 * (mean_of data1 - mean_of data2) / sqrt (pooled_sq_dev data1 data2).

(** Two groups of the same size n:
    n (n - 1) (mean1 - mean2)^2 / (pooled squared deviations). *)
Definition two_groups_F (data1 data2 : list R) : R :=
  size data1 * (size data1 - 1) * (mean_of data1 - mean_of data2) ^ 2
  / pooled_sq_dev data1 data2.

(** Repeated measures: a matrix whose rows all have [k] cells. *)
Definition rectangular (k : nat) (data_matrix : list (list R)) : Prop :=
  Forall (fun row => List.length row = k) data_matrix.

(** Repeated measures: column [j] of the matrix. *)
Definition column (j : nat) (data_matrix : list (list R)) : list R :=
  map (fun row => nth j row 0) data_matrix.

(** Repeated measures: "SS_subjects = sum over all cells (cell - rowMean)^2". *)
Definition SS_subjects (data_matrix : list (list R)) : R := SSW data_matrix.

(** Repeated measures: "SS_conditions = n sum_j (colMean_j - overallMean)^2". *)
Definition SS_conditions (k : nat) (data_matrix : list (list R)) : R :=
  size data_matrix *
  Rsum (map (fun j => (mean_of (column j data_matrix)
                       - mean_of (concat data_matrix)) ^ 2) (seq 0 k)).

(** Repeated measures: "SS_error = SS_subjects - SS_conditions". *)
Definition SS_error (k : nat) (data_matrix : list (list R)) : R :=
  SS_subjects data_matrix - SS_conditions k data_matrix.

(** Repeated measures: "df_conditions = k-1". *)
Definition df_conditions (k : nat) : Z := (Z.of_nat k - 1)%Z.

(** Repeated measures: "df_error = (k-1)(n-1)". *)
Definition df_error (n k : nat) : Z := ((Z.of_nat k - 1) * (Z.of_nat n - 1))%Z.




(** ** Basic facts about the embedding *)

(** Sums, counts and means of lists given by their elements. *)
Ltac eval_stats :=
  unfold SS_error, SS_subjects, SS_conditions, SSB, SSW, population_std,
    sq_dev, column, mean_of, weighted_squares, size, Rsum;
  cbn [map fold_right seq concat app combine fst snd List.length nth INR].

Lemma py_div_ok (a b : R) : b <> 0 -> py_div a b = Ok (a / b).
Proof.
  intros Hb. unfold py_div. destruct (Req_dec_T b 0); [contradiction | reflexivity].
Qed.

Lemma py_div_zero (a : R) : py_div a 0 = Err ZeroDivisionError.
Proof.
  unfold py_div. destruct (Req_dec_T 0 0) as [_ | H]; [reflexivity | now elim H].
Qed.

Lemma math_sqrt_ok (x : R) : 0 <= x -> math_sqrt x = Ok (sqrt x).
Proof.
  intros Hx. unfold math_sqrt. destruct (Rlt_dec x 0); [lra | reflexivity].
Qed.

Lemma math_sqrt_neg (x : R) : x < 0 -> math_sqrt x = Err ValueError.
Proof.
  intros Hx. unfold math_sqrt. destruct (Rlt_dec x 0); [reflexivity | lra].
Qed.

Lemma IZR_len {X : Type} (xs : list X) : IZR (len xs) = size xs.
Proof. unfold len, size. now rewrite <- INR_IZR_INZ. Qed.

Lemma size_cons {X : Type} (x : X) (xs : list X) : size (x :: xs) = size xs + 1.
Proof. unfold size. cbn [List.length]. now rewrite S_INR. Qed.

Lemma size_nonneg {X : Type} (xs : list X) : 0 <= size xs.
Proof. apply pos_INR. Qed.

Lemma size_pos {X : Type} (xs : list X) : xs <> [] -> 0 < size xs.
Proof.
  destruct xs as [| x xs]; [congruence | intros _].
  rewrite size_cons. pose proof (size_nonneg xs). lra.
Qed.

Lemma size_nil {X : Type} : size (@nil X) = 0.
Proof. reflexivity. Qed.

(** An accumulating loop adds the sum of what each iteration contributes. *)
Lemma fold_left_acc {X : Type} (f : X -> R) (xs : list X) (a : R) :
  fold_left (fun acc x => acc + f x) xs a = a + Rsum (map f xs).
Proof.
  revert a. induction xs as [| x xs IH]; intros a; cbn [fold_left map].
  - unfold Rsum; cbn; lra.
  - rewrite IH. unfold Rsum; cbn [fold_right]; lra.
Qed.

Lemma fold_left_total (xs : list R) :
  fold_left (fun total x => total + x) xs 0 = Rsum xs.
Proof.
  rewrite (fold_left_acc (fun x => x)), map_id. lra.
Qed.

Lemma sq_dev_nonneg (m : R) (xs : list R) : 0 <= sq_dev m xs.
Proof.
  unfold sq_dev, Rsum. induction xs as [| x xs IH]; cbn [map fold_right].
  - lra.
  - pose proof (pow2_ge_0 (x - m)). lra.
Qed.

(** [arithmetic_mean] on a non-empty sequence. *)
Lemma arithmetic_mean_ok (data : list R) :
  data <> [] -> arithmetic_mean data = Ok (mean_of data).
Proof.
  intros Hne. unfold arithmetic_mean, mean_of.
  rewrite fold_left_total, IZR_len.
  apply py_div_ok. pose proof (size_pos data Hne). lra.
Qed.

(** [arithmetic_mean] on the empty sequence. *)
Lemma arithmetic_mean_nil : arithmetic_mean [] = Err ZeroDivisionError.
Proof. unfold arithmetic_mean. cbn. apply py_div_zero. Qed.

(** ** Standard deviation *)

Lemma fold_left_sq_dev (m : R) (xs : list R) (a : R) :
  fold_left (fun acc x => acc + (x - m) ^ 2) xs a = a + sq_dev m xs.
Proof. apply (fold_left_acc (fun x => (x - m) ^ 2)). Qed.

(** [standard_deviation] on a non-empty sequence. *)
Lemma standard_deviation_ok (data : list R) :
  data <> [] -> standard_deviation data = Ok (population_std data).
Proof.
  intros Hne. unfold standard_deviation, population_std.
  rewrite (arithmetic_mean_ok data Hne). cbn [bind].
  rewrite fold_left_sq_dev, IZR_len, Rplus_0_l.
  pose proof (size_pos data Hne) as Hn.
  rewrite py_div_ok by lra. cbn [bind].
  apply math_sqrt_ok.
  apply Rmult_le_pos; [apply sq_dev_nonneg | left; now apply Rinv_0_lt_compat].
Qed.

(** C2.  On a non-empty sequence [standard_deviation] returns the square root
    of the sum of the squared deviations from the arithmetic mean divided by
    the full count n (the divisor is n, not n-1). *)
Theorem standard_deviation_population (data : list R) :
  data <> [] ->
  standard_deviation data
  = Ok (sqrt (Rsum (map (fun x => (x - Rsum data / size data) ^ 2) data)
              / size data)).
Proof.
  intros Hne. exact (standard_deviation_ok data Hne).
Qed.

Lemma standard_deviation_population_witness :
  [2; 4; 4; 4; 5; 5; 7; 9] <> [] /\
  standard_deviation [2; 4; 4; 4; 5; 5; 7; 9]
  = Ok (sqrt (Rsum (map (fun x => (x - Rsum [2; 4; 4; 4; 5; 5; 7; 9]
                                       / size [2; 4; 4; 4; 5; 5; 7; 9]) ^ 2)
                        [2; 4; 4; 4; 5; 5; 7; 9])
              / size [2; 4; 4; 4; 5; 5; 7; 9])).
Proof.
  split; [discriminate | apply standard_deviation_population; discriminate].
Defined.

(** The deviation of the classic example is 2. *)
Example standard_deviation_example :
  standard_deviation [2; 4; 4; 4; 5; 5; 7; 9] = Ok 2.
Proof.
  rewrite standard_deviation_ok by discriminate. f_equal.
  eval_stats.
  replace (_ / _) with (2 * 2) by field.
  apply sqrt_square. lra.
Qed.

(** ** Harmonic mean *)

Lemma positive_true (x : R) : positive x = true <-> 0 < x.
Proof.
  unfold positive. destruct (Rlt_dec 0 x); split; intros; try easy.
Qed.

Lemma positive_false (x : R) : positive x = false <-> x <= 0.
Proof.
  unfold positive. destruct (Rlt_dec 0 x); split; intros; try easy; lra.
Qed.

(** The loop of [harmonic_mean] never fails: it adds the reciprocals of the
    strictly positive samples and counts them. *)
Lemma harmonic_loop (data : list R) (reciprocal_sum : R) (count : Z) :
  for_each harmonic_step data (reciprocal_sum, count)
  = Ok (reciprocal_sum + Rsum (map Rinv (filter positive data)),
        (count + len (filter positive data))%Z).
Proof.
  revert reciprocal_sum count.
  induction data as [| x data IH]; intros rs c; cbn [for_each filter].
  - unfold Rsum, len; cbn. now rewrite Rplus_0_r, Z.add_0_r.
  - unfold harmonic_step at 1.
    destruct (positive x) eqn:Hpos.
    + apply positive_true in Hpos.
      destruct (Rlt_dec 0 x) as [_ | Hx]; [| contradiction].
      rewrite py_div_ok by lra. cbn [bind]. rewrite IH.
      unfold Rsum, len. cbn [map fold_right List.length].
      rewrite Nat2Z.inj_succ.
      f_equal. f_equal; [unfold Rdiv; lra | lia].
    + apply positive_false in Hpos.
      destruct (Rlt_dec 0 x) as [Hx | _]; [lra |].
      cbn [bind]. apply IH.
Qed.

Lemma filter_positive_Forall (data : list R) :
  Forall (fun x => 0 < x) (filter positive data).
Proof.
  apply Forall_forall. intros x Hx.
  apply filter_In in Hx. now apply positive_true.
Qed.

Lemma Rsum_inv_pos (xs : list R) :
  Forall (fun x => 0 < x) xs -> xs <> [] -> 0 < Rsum (map Rinv xs).
Proof.
  intros Hall. induction Hall as [| x xs Hx Hall IH]; [congruence | intros _].
  unfold Rsum in *. cbn [map fold_right].
  pose proof (Rinv_0_lt_compat x Hx).
  destruct xs as [| y ys]; [cbn; lra |].
  assert (0 < fold_right Rplus 0 (map Rinv (y :: ys))) by (apply IH; discriminate).
  lra.
Qed.

(** [harmonic_mean] when some sample is strictly positive. *)
Lemma harmonic_mean_some (data : list R) :
  filter positive data <> [] -> harmonic_mean data = Ok (harmonic_of data).
Proof.
  intros Hne. unfold harmonic_mean, harmonic_of.
  rewrite harmonic_loop. cbn [bind]. rewrite Z.add_0_l, Rplus_0_l.
  destruct (Z.eqb_spec (len (filter positive data)) 0) as [H0 | _].
  - unfold len in H0. destruct (filter positive data); [congruence | discriminate].
  - rewrite IZR_len. apply py_div_ok.
    pose proof (Rsum_inv_pos _ (filter_positive_Forall data) Hne). lra.
Qed.

(** [harmonic_mean] when no sample is strictly positive. *)
Lemma harmonic_mean_none (data : list R) :
  filter positive data = [] -> harmonic_mean data = Ok 0.
Proof.
  intros Hnil. unfold harmonic_mean.
  rewrite harmonic_loop, Hnil. reflexivity.
Qed.

(** C8.  [harmonic_mean] returns the count of the strictly positive samples
    divided by the sum of their reciprocals, the samples that are zero or
    negative being left out of both; and on a sequence with no strictly
    positive sample it returns 0 and does not fail. *)
Theorem harmonic_mean_positive_part (data : list R) :
  ((exists x, In x data /\ 0 < x) ->
   harmonic_mean data
   = Ok (size (filter positive data) / Rsum (map Rinv (filter positive data))))
  /\ ((forall x, In x data -> x <= 0) -> harmonic_mean data = Ok 0).
Proof.
  split.
  - intros (x & Hin & Hx). apply harmonic_mean_some.
    intros Hnil.
    assert (Hf : In x (filter positive data))
      by (apply filter_In; split; [assumption | now apply positive_true]).
    rewrite Hnil in Hf. destruct Hf.
  - intros Hall. apply harmonic_mean_none.
    destruct (filter positive data) as [| y ys] eqn:E; [reflexivity |].
    assert (Hy : In y (filter positive data)) by (rewrite E; now left).
    apply filter_In in Hy. destruct Hy as [Hin Hpos].
    apply positive_true in Hpos. specialize (Hall y Hin). lra.
Qed.

Lemma harmonic_mean_positive_part_witness :
  harmonic_mean [4; -1; 0; 4]
  = Ok (size (filter positive [4; -1; 0; 4])
        / Rsum (map Rinv (filter positive [4; -1; 0; 4])))
  /\ harmonic_mean [-1; 0] = Ok 0.
Proof.
  split.
  - apply (proj1 (harmonic_mean_positive_part [4; -1; 0; 4])).
    exists 4. split; [now left | lra].
  - apply (proj2 (harmonic_mean_positive_part [-1; 0])).
    intros x [<- | [<- | []]]; lra.
Defined.

(** ** Empty input *)

Lemma standard_deviation_nil : standard_deviation [] = Err ZeroDivisionError.
Proof. unfold standard_deviation. now rewrite arithmetic_mean_nil. Qed.

(** C3, as stated, fails: on the empty sequence [harmonic_mean] returns 0 (the
    guard of line 32) and raises nothing. *)
Lemma harmonic_mean_nil_returns :
  harmonic_mean [] = Ok 0 /\ (forall e, harmonic_mean [] <> Err e).
Proof. split; [reflexivity | discriminate]. Qed.

(** C3, amended.  On the empty sequence [arithmetic_mean] and
    [standard_deviation] fail with a division by zero, and [harmonic_mean]
    returns 0. *)
Theorem empty_input :
  arithmetic_mean [] = Err ZeroDivisionError
  /\ standard_deviation [] = Err ZeroDivisionError
  /\ harmonic_mean [] = Ok 0.
Proof.
  repeat split.
  - apply arithmetic_mean_nil.
  - apply standard_deviation_nil.
Qed.

(** ** Pooled standard deviation *)

(** The loop of [pooled_std] over the zipped lists. *)
Lemma pooled_loop (std_list : list R) (n_list : list Z)
    (numerator : R) (denominator : Z) :
  List.length std_list = List.length n_list ->
  fold_left
    (fun (st : R * Z) (sn : R * Z) =>
       let '(numerator, denominator) := st in
       let '(s, n) := sn in
       (numerator + IZR (n - 1) * s ^ 2, (denominator + (n - 1))%Z))
    (combine std_list n_list) (numerator, denominator)
  = (numerator + weighted_squares std_list n_list,
     (denominator + total_df n_list)%Z).
Proof.
  revert n_list numerator denominator.
  induction std_list as [| s std_list IH]; intros [| n n_list] a b Hlen;
    try discriminate Hlen.
  - cbn. unfold weighted_squares, total_df. cbn.
    now rewrite Rplus_0_r, Z.add_0_r.
  - cbn [combine fold_left]. rewrite IH by (cbn in Hlen; lia).
    unfold weighted_squares, total_df, Rsum, Zsum.
    cbn [combine map fold_right fst snd].
    rewrite minus_IZR. f_equal; [lra | lia].
Qed.

(** [pooled_std] is the quotient of the two sums, then the square root. *)
Lemma pooled_std_sums (std_list : list R) (n_list : list Z) :
  List.length std_list = List.length n_list ->
  pooled_std std_list n_list
  = (q <- py_div (weighted_squares std_list n_list) (IZR (total_df n_list)) ;;
     math_sqrt q).
Proof.
  intros Hlen. unfold pooled_std.
  rewrite (pooled_loop _ _ _ _ Hlen), Rplus_0_l, Z.add_0_l. reflexivity.
Qed.

(** With every size at least 1 the weighted sum of squares is not negative. *)
Lemma weighted_squares_nonneg (std_list : list R) (n_list : list Z) :
  Forall (fun n => (1 <= n)%Z) n_list -> 0 <= weighted_squares std_list n_list.
Proof.
  intros Hall. revert std_list.
  induction Hall as [| n n_list Hn Hall IH]; intros [| s std_list];
    unfold weighted_squares, Rsum in *; cbn [combine map fold_right fst snd];
    try lra.
  specialize (IH std_list).
  apply IZR_le in Hn. pose proof (pow2_ge_0 s).
  assert (0 <= (IZR n - 1) * s ^ 2) by (apply Rmult_le_pos; lra).
  lra.
Qed.

(** C4, as stated, fails: with a size 0 among the sizes the sum of (n_i - 1)
    can be positive while the weighted sum of squares is negative, and
    [math.sqrt] raises. *)
Lemma pooled_std_negative_radicand :
  List.length [5; 0] = List.length [0%Z; 3%Z]
  /\ (0 < total_df [0; 3])%Z
  /\ pooled_std [5; 0] [0%Z; 3%Z] = Err ValueError.
Proof.
  split; [reflexivity | split; [reflexivity |]].
  rewrite pooled_std_sums by reflexivity.
  change (total_df [0; 3])%Z with 1%Z.
  eval_stats.
  rewrite py_div_ok by lra. cbn [bind].
  apply math_sqrt_neg. lra.
Qed.

(** C4, amended.  For lists of equal length, [pooled_std] fails with a
    division by zero when the sum of (n_i - 1) is zero; when that sum is
    positive and the sum of (n_i - 1) s_i^2 is not negative, it returns the
    square root of the quotient of the two sums. *)
Theorem pooled_std_spec (std_list : list R) (n_list : list Z) :
  List.length std_list = List.length n_list ->
  (total_df n_list = 0%Z -> pooled_std std_list n_list = Err ZeroDivisionError)
  /\ ((0 < total_df n_list)%Z -> 0 <= weighted_squares std_list n_list ->
      pooled_std std_list n_list
      = Ok (sqrt (weighted_squares std_list n_list / IZR (total_df n_list)))).
Proof.
  intros Hlen. rewrite (pooled_std_sums _ _ Hlen). split.
  - intros ->. now rewrite py_div_zero.
  - intros Hdf Hnum. apply IZR_lt in Hdf.
    rewrite py_div_ok by lra. cbn [bind].
    apply math_sqrt_ok.
    apply Rmult_le_pos; [assumption | left; now apply Rinv_0_lt_compat].
Qed.

Lemma pooled_std_spec_witness :
  pooled_std [10; 12] [1%Z; 1%Z] = Err ZeroDivisionError
  /\ pooled_std [10; 12] [30%Z; 35%Z]
     = Ok (sqrt (weighted_squares [10; 12] [30%Z; 35%Z]
                 / IZR (total_df [30%Z; 35%Z]))).
Proof.
  split.
  - apply (proj1 (pooled_std_spec [10; 12] [1%Z; 1%Z] eq_refl)). reflexivity.
  - apply (proj2 (pooled_std_spec [10; 12] [30%Z; 35%Z] eq_refl)).
    + reflexivity.
    + apply weighted_squares_nonneg. repeat constructor; discriminate.
Defined.

(** ** Independent t-test *)

Lemma pooled_squares_nonneg (sigma1 sigma2 : R) (n1 n2 : Z) :
  (1 <= n1)%Z -> (1 <= n2)%Z -> 0 <= pooled_squares sigma1 sigma2 n1 n2.
Proof.
  intros H1 H2. apply IZR_le in H1, H2. unfold pooled_squares.
  pose proof (pow2_ge_0 sigma1). pose proof (pow2_ge_0 sigma2).
  assert (0 <= (IZR n1 - 1) * sigma1 ^ 2) by (apply Rmult_le_pos; lra).
  assert (0 <= (IZR n2 - 1) * sigma2 ^ 2) by (apply Rmult_le_pos; lra).
  lra.
Qed.

Lemma inv_sizes_pos (n1 n2 : Z) :
  (1 <= n1)%Z -> (1 <= n2)%Z -> 0 < 1 / IZR n1 + 1 / IZR n2.
Proof.
  intros H1 H2. apply IZR_le in H1, H2.
  assert (0 < / IZR n1) by (apply Rinv_0_lt_compat; lra).
  assert (0 < / IZR n2) by (apply Rinv_0_lt_compat; lra).
  unfold Rdiv. lra.
Qed.

(** Lines 101-112 on two non-empty groups with n1+n2 > 2: up to the last
    division nothing fails, and the last division is by [sp * sqrt(1/n1+1/n2)]. *)
Lemma t_test_summary_steps (cdf_t : R -> Z -> R)
    (mu1 mu2 sigma1 sigma2 : R) (n1 n2 : Z) :
  (1 <= n1)%Z -> (1 <= n2)%Z -> (n1 + n2 > 2)%Z ->
  t_test_summary cdf_t (Some mu1) (Some mu2) (Some sigma1) (Some sigma2)
    (Some n1) (Some n2)
  = (t_value <- py_div (mu1 - mu2)
                  (pooled_se sigma1 sigma2 n1 n2 * sqrt (1 / IZR n1 + 1 / IZR n2)) ;;
     Ok (t_value, two_tailed_p cdf_t t_value (t_df n1 n2))).
Proof.
  intros H1 H2 Hdf. unfold t_test_summary. cbn [arg bind].
  change (n1 + n2 - 2)%Z with (t_df n1 n2).
  rewrite !minus_IZR. fold (pooled_squares sigma1 sigma2 n1 n2).
  assert (Hdf' : 0 < IZR (t_df n1 n2)) by (apply IZR_lt; unfold t_df; lia).
  rewrite py_div_ok by lra. cbn [bind].
  rewrite math_sqrt_ok.
  2:{ apply Rmult_le_pos; [now apply pooled_squares_nonneg |].
      left. now apply Rinv_0_lt_compat. }
  cbn [bind].
  pose proof (IZR_le _ _ H1). pose proof (IZR_le _ _ H2).
  rewrite !py_div_ok by lra. cbn [bind].
  rewrite math_sqrt_ok by (left; now apply inv_sizes_pos).
  reflexivity.
Qed.

Lemma pooled_se_zero (sigma1 sigma2 : R) (n1 n2 : Z) :
  pooled_squares sigma1 sigma2 n1 n2 = 0 -> pooled_se sigma1 sigma2 n1 n2 = 0.
Proof.
  intros H0. unfold pooled_se. rewrite H0. unfold Rdiv.
  now rewrite Rmult_0_l, sqrt_0.
Qed.

Lemma pooled_se_pos (sigma1 sigma2 : R) (n1 n2 : Z) :
  (1 <= n1)%Z -> (1 <= n2)%Z -> (n1 + n2 > 2)%Z ->
  pooled_squares sigma1 sigma2 n1 n2 <> 0 ->
  0 < pooled_se sigma1 sigma2 n1 n2.
Proof.
  intros H1 H2 Hdf Hne. unfold pooled_se. apply sqrt_lt_R0.
  pose proof (pooled_squares_nonneg sigma1 sigma2 n1 n2 H1 H2).
  assert (0 < IZR (t_df n1 n2)) by (apply IZR_lt; unfold t_df; lia).
  apply Rmult_lt_0_compat; [lra | now apply Rinv_0_lt_compat].
Qed.

(** C1, as stated, fails, although n1+n2 > 2: with both standard deviations 0
    the pooled standard error is 0 and the division of line 107 raises; and
    with n1 = 0 the quotient 1/n1 of the same line raises. *)
Lemma t_test_zero_spread :
  (2 + 2 > 2)%Z
  /\ (forall cdf_t mean_type,
        t_test cdf_t None None (Some 1) (Some 0) (Some 0) (Some 0)
          (Some 2%Z) (Some 2%Z) mean_type
        = Err ZeroDivisionError)
  /\ (0 + 3 > 2)%Z
  /\ (forall cdf_t mean_type,
        t_test cdf_t None None (Some 1) (Some 0) (Some 1) (Some 1)
          (Some 0%Z) (Some 3%Z) mean_type
        = Err ZeroDivisionError).
Proof.
  split; [reflexivity |]. split; [| split; [reflexivity |]];
    intros cdf_t mean_type; unfold t_test.
  - rewrite t_test_summary_steps by lia.
    rewrite pooled_se_zero by (unfold pooled_squares; lra).
    now rewrite Rmult_0_l, py_div_zero.
  - unfold t_test_summary. cbn [arg bind].
    change (0 + 3 - 2)%Z with 1%Z. change (0 - 1)%Z with (-1)%Z.
    change (3 - 1)%Z with 2%Z.
    rewrite py_div_ok by lra. cbn [bind].
    rewrite math_sqrt_ok by lra. cbn [bind].
    now rewrite py_div_zero.
Qed.

(** C1, amended.  For two non-empty groups given as summary statistics, with
    n1+n2 > 2: when (n1-1) sigma1^2 + (n2-1) sigma2^2 is not 0, [t_test]
    returns (t, p) with df = n1+n2-2, sp the root of that sum over df,
    t = (mu1-mu2)/(sp sqrt(1/n1+1/n2)) and p = 2 (1 - CDF_t(|t|, df)); when
    the sum is 0, [t_test] fails with a division by zero. *)
Theorem t_test_summary_mode (cdf_t : R -> Z -> R)
    (mu1 mu2 sigma1 sigma2 : R) (n1 n2 : Z) (mean_type : string) :
  (1 <= n1)%Z -> (1 <= n2)%Z -> (n1 + n2 > 2)%Z ->
  (pooled_squares sigma1 sigma2 n1 n2 <> 0 ->
   t_test cdf_t None None (Some mu1) (Some mu2) (Some sigma1) (Some sigma2)
     (Some n1) (Some n2) mean_type
   = Ok (t_statistic mu1 mu2 sigma1 sigma2 n1 n2,
         two_tailed_p cdf_t (t_statistic mu1 mu2 sigma1 sigma2 n1 n2)
           (t_df n1 n2)))
  /\ (pooled_squares sigma1 sigma2 n1 n2 = 0 ->
      t_test cdf_t None None (Some mu1) (Some mu2) (Some sigma1) (Some sigma2)
        (Some n1) (Some n2) mean_type
      = Err ZeroDivisionError).
Proof.
  intros H1 H2 Hdf. unfold t_test.
  rewrite (t_test_summary_steps _ _ _ _ _ _ _ H1 H2 Hdf). split.
  - intros Hne.
    pose proof (pooled_se_pos sigma1 sigma2 n1 n2 H1 H2 Hdf Hne) as Hsp.
    pose proof (sqrt_lt_R0 _ (inv_sizes_pos n1 n2 H1 H2)) as Hs.
    rewrite py_div_ok; [reflexivity |].
    pose proof (Rmult_lt_0_compat _ _ Hsp Hs). lra.
  - intros H0. rewrite (pooled_se_zero _ _ _ _ H0).
    now rewrite Rmult_0_l, py_div_zero.
Qed.

Lemma t_test_summary_mode_witness :
  t_test (fun _ _ => 1) None None (Some 14) (Some 24) (Some 3) (Some 3)
    (Some 5%Z) (Some 5%Z) "arithmetic"
  = Ok (t_statistic 14 24 3 3 5 5,
        two_tailed_p (fun _ _ => 1) (t_statistic 14 24 3 3 5 5) (t_df 5 5))
  /\ t_test (fun _ _ => 1) None None (Some 14) (Some 24) (Some 0) (Some 0)
       (Some 5%Z) (Some 5%Z) "arithmetic"
     = Err ZeroDivisionError.
Proof.
  split.
  - apply (proj1 (t_test_summary_mode (fun _ _ => 1) 14 24 3 3 5 5 "arithmetic"
                    ltac:(lia) ltac:(lia) ltac:(lia))).
    unfold pooled_squares. lra.
  - apply (proj2 (t_test_summary_mode (fun _ _ => 1) 14 24 0 0 5 5 "arithmetic"
                    ltac:(lia) ltac:(lia) ltac:(lia))).
    unfold pooled_squares. lra.
Defined.

(** [harmonic_mean] returns on every sequence. *)
Lemma harmonic_mean_total (data : list R) : exists hm, harmonic_mean data = Ok hm.
Proof.
  destruct (filter positive data) as [| y ys] eqn:E.
  - exists 0. now apply harmonic_mean_none.
  - exists (harmonic_of data). apply harmonic_mean_some. rewrite E. discriminate.
Qed.

(** The selected mean returns on every non-empty sequence. *)
Lemma selected_mean_total (mean_type : string) (data : list R) :
  data <> [] -> exists mu, selected_mean mean_type data = Ok mu.
Proof.
  intros Hne. unfold selected_mean.
  destruct (String.eqb mean_type "harmonic").
  - apply harmonic_mean_total.
  - exists (mean_of data). now apply arithmetic_mean_ok.
Qed.

(** Lines 87-99: with raw data, [t_test] is the tail of lines 101-112 run on
    the statistics computed from the data. *)
Lemma t_test_raw (cdf_t : R -> Z -> R) (data1 data2 : list R)
    (a1 a2 b1 b2 : option R) (c1 c2 : option Z) (mean_type : string)
    (mu1 mu2 sigma1 sigma2 : R) :
  selected_mean mean_type data1 = Ok mu1 ->
  selected_mean mean_type data2 = Ok mu2 ->
  standard_deviation data1 = Ok sigma1 ->
  standard_deviation data2 = Ok sigma2 ->
  t_test cdf_t (Some data1) (Some data2) a1 a2 b1 b2 c1 c2 mean_type
  = t_test_summary cdf_t (Some mu1) (Some mu2) (Some sigma1) (Some sigma2)
      (Some (len data1)) (Some (len data2)).
Proof.
  unfold selected_mean, t_test. intros Hm1 Hm2 Hs1 Hs2.
  destruct (String.eqb mean_type "harmonic");
    rewrite Hm1, Hm2, Hs1, Hs2; reflexivity.
Qed.

Lemma len_pos {X : Type} (xs : list X) : xs <> [] -> (1 <= len xs)%Z.
Proof.
  destruct xs; [congruence | intros _]. unfold len. cbn [List.length]. lia.
Qed.

(** C5.  For two non-empty sequences of combined length above 2, [t_test] on
    the raw sequences and [t_test] on the summary computed from them (the
    mean that [mean_type] selects, [standard_deviation] and the length of
    each sequence) are interchangeable: the statistics exist, the two calls
    have the same outcome, and when the pooled sum of squares is not 0 both
    return the same pair (t, p). *)
Theorem t_test_modes_agree (cdf_t : R -> Z -> R) (data1 data2 : list R)
    (mean_type : string) :
  data1 <> [] -> data2 <> [] ->
  (List.length data1 + List.length data2 > 2)%nat ->
  exists mu1 mu2 sigma1 sigma2,
    selected_mean mean_type data1 = Ok mu1
    /\ selected_mean mean_type data2 = Ok mu2
    /\ standard_deviation data1 = Ok sigma1
    /\ standard_deviation data2 = Ok sigma2
    /\ t_test cdf_t (Some data1) (Some data2) None None None None None None mean_type
       = t_test cdf_t None None (Some mu1) (Some mu2) (Some sigma1) (Some sigma2)
           (Some (len data1)) (Some (len data2)) mean_type
    /\ (pooled_squares sigma1 sigma2 (len data1) (len data2) <> 0 ->
        exists t p,
          t_test cdf_t (Some data1) (Some data2) None None None None None None
            mean_type
          = Ok (t, p)
          /\ t_test cdf_t None None (Some mu1) (Some mu2) (Some sigma1) (Some sigma2)
               (Some (len data1)) (Some (len data2)) mean_type
             = Ok (t, p)).
Proof.
  intros Hne1 Hne2 Hlen.
  destruct (selected_mean_total mean_type data1 Hne1) as [mu1 Hm1].
  destruct (selected_mean_total mean_type data2 Hne2) as [mu2 Hm2].
  exists mu1, mu2, (population_std data1), (population_std data2).
  pose proof (standard_deviation_ok data1 Hne1) as Hs1.
  pose proof (standard_deviation_ok data2 Hne2) as Hs2.
  repeat (split; [assumption |]).
  rewrite (t_test_raw _ _ _ _ _ _ _ _ _ _ _ _ _ _ Hm1 Hm2 Hs1 Hs2).
  split; [reflexivity |].
  intros Hps. unfold t_test.
  pose proof (len_pos data1 Hne1) as H1. pose proof (len_pos data2 Hne2) as H2.
  assert (Hdf : (len data1 + len data2 > 2)%Z) by (unfold len; lia).
  rewrite (t_test_summary_steps _ _ _ _ _ _ _ H1 H2 Hdf).
  pose proof (pooled_se_pos _ _ _ _ H1 H2 Hdf Hps) as Hsp.
  pose proof (sqrt_lt_R0 _ (inv_sizes_pos _ _ H1 H2)) as Hs.
  pose proof (Rmult_lt_0_compat _ _ Hsp Hs).
  rewrite py_div_ok by lra. cbn [bind].
  eexists. eexists. split; reflexivity.
Qed.

Lemma t_test_modes_agree_witness :
  exists mu1 mu2 sigma1 sigma2,
    selected_mean "arithmetic" [10; 12; 14; 16; 18] = Ok mu1
    /\ selected_mean "arithmetic" [20; 22; 24; 26; 28] = Ok mu2
    /\ standard_deviation [10; 12; 14; 16; 18] = Ok sigma1
    /\ standard_deviation [20; 22; 24; 26; 28] = Ok sigma2
    /\ t_test (fun _ _ => 1) (Some [10; 12; 14; 16; 18]) (Some [20; 22; 24; 26; 28])
         None None None None None None "arithmetic"
       = t_test (fun _ _ => 1) None None (Some mu1) (Some mu2)
           (Some sigma1) (Some sigma2)
           (Some (len [10; 12; 14; 16; 18])) (Some (len [20; 22; 24; 26; 28]))
           "arithmetic"
    /\ (pooled_squares sigma1 sigma2 (len [10; 12; 14; 16; 18])
          (len [20; 22; 24; 26; 28]) <> 0 ->
        exists t p,
          t_test (fun _ _ => 1) (Some [10; 12; 14; 16; 18])
            (Some [20; 22; 24; 26; 28]) None None None None None None "arithmetic"
          = Ok (t, p)
          /\ t_test (fun _ _ => 1) None None (Some mu1) (Some mu2)
               (Some sigma1) (Some sigma2)
               (Some (len [10; 12; 14; 16; 18])) (Some (len [20; 22; 24; 26; 28]))
               "arithmetic"
             = Ok (t, p)).
Proof.
  apply (t_test_modes_agree (fun _ _ => 1) [10; 12; 14; 16; 18]
           [20; 22; 24; 26; 28] "arithmetic").
  - discriminate.
  - discriminate.
  - cbn. lia.
Defined.

(** C10.  With both [data1] and [data2] given, the summary arguments of the
    caller are ignored: two calls that differ only in them have the same
    outcome, and that outcome is the one of lines 101-112 on the means, the
    standard deviations and the lengths computed from the data. *)
Theorem t_test_raw_data_precedence (cdf_t : R -> Z -> R) (data1 data2 : list R)
    (mean_type : string)
    (mu1 mu2 sigma1 sigma2 : option R) (n1 n2 : option Z)
    (mu1' mu2' sigma1' sigma2' : option R) (n1' n2' : option Z) :
  t_test cdf_t (Some data1) (Some data2) mu1 mu2 sigma1 sigma2 n1 n2 mean_type
  = t_test cdf_t (Some data1) (Some data2) mu1' mu2' sigma1' sigma2' n1' n2' mean_type
  /\ t_test cdf_t (Some data1) (Some data2) mu1 mu2 sigma1 sigma2 n1 n2 mean_type
     = (m1 <- selected_mean mean_type data1 ;;
        m2 <- selected_mean mean_type data2 ;;
        s1 <- standard_deviation data1 ;;
        s2 <- standard_deviation data2 ;;
        t_test_summary cdf_t (Some m1) (Some m2) (Some s1) (Some s2)
          (Some (len data1)) (Some (len data2))).
Proof.
  split; [reflexivity |].
  unfold t_test, selected_mean.
  destruct (String.eqb mean_type "harmonic").
  - destruct (harmonic_mean data1); [| reflexivity].
    destruct (harmonic_mean data2); reflexivity.
  - destruct (arithmetic_mean data1); [| reflexivity].
    destruct (arithmetic_mean data2); reflexivity.
Qed.

(** ** The inequality between the arithmetic and the harmonic mean *)

Lemma all_equal_cons (a : R) (xs : list R) :
  all_equal (a :: xs) <-> Forall (fun v => v = a) xs.
Proof.
  split.
  - intros Heq. apply Forall_forall. intros v Hv.
    apply Heq; [now right | now left].
  - intros Hall u v Hu Hv.
    rewrite Forall_forall in Hall.
    destruct Hu as [<- | Hu], Hv as [<- | Hv]; try reflexivity.
    + symmetry. now apply Hall.
    + now apply Hall.
    + rewrite (Hall u Hu). symmetry. now apply Hall.
Qed.

(** For positive [v] and [a], [v/a + a/v] is at least 2, and equal to 2 only
    when [v = a]. *)
Lemma ratio_sum_ge_2 (a v : R) :
  0 < a -> 0 < v -> 2 <= v / a + a / v /\ (v / a + a / v = 2 -> v = a).
Proof.
  intros Ha Hv.
  assert (E : v / a + a / v - 2 = (v - a) ^ 2 / (a * v)) by (field; lra).
  assert (Hav : 0 < a * v) by now apply Rmult_lt_0_compat.
  pose proof (Rinv_0_lt_compat _ Hav) as Hinv.
  pose proof (pow2_ge_0 (v - a)) as Hsq.
  split.
  - assert (0 <= (v - a) ^ 2 / (a * v)) by (apply Rmult_le_pos; lra). lra.
  - intros H2.
    assert (H0 : (v - a) ^ 2 / (a * v) = 0) by lra.
    unfold Rdiv in H0. apply Rmult_integral in H0. destruct H0 as [H0 | H0]; [| lra].
    assert (v - a = 0) by nra.
    lra.
Qed.

Lemma Rsum_cons (x : R) (xs : list R) : Rsum (x :: xs) = x + Rsum xs.
Proof. reflexivity. Qed.

Lemma Rsum_nil : Rsum [] = 0.
Proof. reflexivity. Qed.

(** The mixed terms of the product of the two sums, against one positive [a]. *)
Lemma cross_sum (a : R) (xs : list R) :
  0 < a -> Forall (fun v => 0 < v) xs ->
  2 * size xs <= Rsum xs / a + a * Rsum (map Rinv xs)
  /\ (Rsum xs / a + a * Rsum (map Rinv xs) = 2 * size xs ->
      Forall (fun v => v = a) xs).
Proof.
  intros Ha Hall. induction Hall as [| v xs Hv Hall [IHle IHeq]].
  - rewrite (@size_nil R). cbn [map]. rewrite Rsum_nil. split; [lra | constructor].
  - cbn [map]. rewrite !Rsum_cons, size_cons.
    destruct (ratio_sum_ge_2 a v Ha Hv) as [Hle Heq].
    assert (E : (v + Rsum xs) / a + a * (/ v + Rsum (map Rinv xs))
                = (v / a + a / v) + (Rsum xs / a + a * Rsum (map Rinv xs)))
      by (field; lra).
    rewrite E. split; [lra |].
    intros Htot. constructor; [apply Heq; lra | apply IHeq; lra].
Qed.

Lemma Rsum_constant (a : R) (xs : list R) :
  Forall (fun v => v = a) xs ->
  Rsum xs = size xs * a /\ Rsum (map Rinv xs) = size xs * / a.
Proof.
  intros Hall. induction Hall as [| v xs Hv Hall [IH1 IH2]].
  - rewrite (@size_nil R). cbn [map]. rewrite Rsum_nil. lra.
  - cbn [map]. rewrite !Rsum_cons, size_cons, IH1, IH2, Hv. lra.
Qed.

(** The product of the sum of positive numbers and the sum of their
    reciprocals is at least the square of their count, with equality exactly
    when the numbers are all equal. *)
Lemma sum_times_reciprocal_sum (xs : list R) :
  Forall (fun v => 0 < v) xs ->
  size xs ^ 2 <= Rsum xs * Rsum (map Rinv xs)
  /\ (Rsum xs * Rsum (map Rinv xs) = size xs ^ 2 <-> all_equal xs).
Proof.
  intros Hall. induction Hall as [| a xs Ha Hall [IHle IHeq]].
  - rewrite (@size_nil R). cbn [map]. rewrite Rsum_nil. split; [lra |].
    split; [intros _ u v [] | intros _; lra].
  - destruct (cross_sum a xs Ha Hall) as [Hcle Hceq].
    cbn [map]. rewrite !Rsum_cons, size_cons.
    assert (E : (a + Rsum xs) * (/ a + Rsum (map Rinv xs))
                = 1 + (Rsum xs / a + a * Rsum (map Rinv xs))
                  + Rsum xs * Rsum (map Rinv xs)) by (field; lra).
    rewrite E. split; [nra |]. split.
    + intros Htot. apply all_equal_cons. apply Hceq. nra.
    + intros Heq. apply all_equal_cons in Heq.
      destruct (Rsum_constant a xs Heq) as [-> ->].
      field. lra.
Qed.

Lemma filter_positive_all (xs : list R) :
  Forall (fun v => 0 < v) xs -> filter positive xs = xs.
Proof.
  intros Hall. induction Hall as [| v xs Hv Hall IH]; [reflexivity |].
  cbn [filter]. apply positive_true in Hv. now rewrite Hv, IH.
Qed.

(** C9, as stated, fails of the floats returned: on [3, 3, 3, 3, 3] the sum
    of the five rounded reciprocals is below 5/3, [harmonic_mean] returns
    3.0000000000000004 (the float next above 3) and [arithmetic_mean] returns
    3.0; the harmonic mean is the greater one, and the two differ although
    all the elements are equal. *)
Lemma harmonic_mean_above_arithmetic_mean :
  Forall (fun v => (0 <? v)%float = true) [3; 3; 3; 3; 3]%float
  /\ Binary64.arithmetic_mean [3; 3; 3; 3; 3]%float = Ok 3%float
  /\ Binary64.harmonic_mean [3; 3; 3; 3; 3]%float = Ok 0x1.8000000000001p+1%float
  /\ (3 <? 0x1.8000000000001p+1)%float = true.
Proof.
  split; [repeat constructor |]. repeat split.
Qed.

(** C9, amended.  On a non-empty sequence x of strictly positive values
    [arithmetic_mean] returns A = (sum of x)/n and [harmonic_mean] returns
    H = n/(sum of 1/x); as real numbers A >= H, with equality exactly when
    all the elements of x are equal.  (The floats returned are the rounded
    evaluations of A and H and need not satisfy the inequality.) *)
Theorem arithmetic_mean_ge_harmonic_mean (x : list R) :
  x <> [] -> Forall (fun v => 0 < v) x ->
  arithmetic_mean x = Ok (mean_of x)
  /\ harmonic_mean x = Ok (harmonic_of x)
  /\ mean_of x >= harmonic_of x
  /\ (mean_of x = harmonic_of x <-> all_equal x).
Proof.
  intros Hne Hpos.
  split; [now apply arithmetic_mean_ok |].
  split; [apply harmonic_mean_some; now rewrite filter_positive_all |].
  unfold mean_of, harmonic_of. rewrite (filter_positive_all x Hpos).
  pose proof (size_pos x Hne) as Hn.
  pose proof (Rsum_inv_pos x Hpos Hne) as HT.
  destruct (sum_times_reciprocal_sum x Hpos) as [Hle Heq].
  assert (HnT : 0 < size x * Rsum (map Rinv x)) by now apply Rmult_lt_0_compat.
  assert (E : Rsum x / size x - size x / Rsum (map Rinv x)
              = (Rsum x * Rsum (map Rinv x) - size x ^ 2)
                / (size x * Rsum (map Rinv x))) by (field; lra).
  pose proof (Rinv_0_lt_compat _ HnT) as Hinv.
  split.
  - assert (0 <= (Rsum x * Rsum (map Rinv x) - size x ^ 2)
                 / (size x * Rsum (map Rinv x)))
      by (apply Rmult_le_pos; lra).
    lra.
  - rewrite <- Heq. split.
    + intros Hmeans.
      assert (H0 : (Rsum x * Rsum (map Rinv x) - size x ^ 2)
                   / (size x * Rsum (map Rinv x)) = 0) by lra.
      unfold Rdiv in H0. apply Rmult_integral in H0.
      destruct H0 as [H0 | H0]; lra.
    + intros Hprod. rewrite Hprod in E.
      unfold Rdiv at 3 in E. rewrite Rminus_diag, Rmult_0_l in E. lra.
Qed.

Lemma arithmetic_mean_ge_harmonic_mean_witness :
  arithmetic_mean [10; 20; 30; 40; 50] = Ok (mean_of [10; 20; 30; 40; 50])
  /\ harmonic_mean [10; 20; 30; 40; 50] = Ok (harmonic_of [10; 20; 30; 40; 50])
  /\ mean_of [10; 20; 30; 40; 50] >= harmonic_of [10; 20; 30; 40; 50]
  /\ (mean_of [10; 20; 30; 40; 50] = harmonic_of [10; 20; 30; 40; 50]
      <-> all_equal [10; 20; 30; 40; 50]).
Proof.
  apply (arithmetic_mean_ge_harmonic_mean [10; 20; 30; 40; 50]).
  - discriminate.
  - repeat constructor; lra.
Defined.

(** ** One-way ANOVA *)

(** The loop that builds [all_data] concatenates the groups. *)
Lemma all_data_concat (groups : list (list R)) (acc : list R) :
  fold_left (fun all_data group => all_data ++ group) groups acc
  = acc ++ concat groups.
Proof.
  revert acc. induction groups as [| g groups IH]; intros acc; cbn [fold_left concat].
  - now rewrite app_nil_r.
  - now rewrite IH, app_assoc.
Qed.

Lemma Rsum_Permutation (xs ys : list R) : Permutation xs ys -> Rsum xs = Rsum ys.
Proof.
  intros HP. induction HP as [| x xs ys _ IH | x y xs | xs ys zs _ IH1 _ IH2];
    rewrite ?Rsum_cons; lra.
Qed.

Lemma concat_Permutation {X : Type} (gs gs' : list (list X)) :
  Permutation gs gs' -> Permutation (concat gs) (concat gs').
Proof.
  intros HP. induction HP as [| g gs gs' _ IH | g h gs | gs gs' gs'' _ IH1 _ IH2];
    cbn [concat].
  - constructor.
  - now apply Permutation_app_head.
  - rewrite !app_assoc. apply Permutation_app_tail, Permutation_app_comm.
  - now transitivity (concat gs').
Qed.

(** [arithmetic_mean] depends on the sum and on the count only. *)
Lemma arithmetic_mean_sum (data : list R) :
  arithmetic_mean data = py_div (Rsum data) (size data).
Proof. unfold arithmetic_mean. now rewrite fold_left_total, IZR_len. Qed.

Lemma arithmetic_mean_Permutation (xs ys : list R) :
  Permutation xs ys -> arithmetic_mean xs = arithmetic_mean ys.
Proof.
  intros HP. rewrite !arithmetic_mean_sum, (Rsum_Permutation _ _ HP).
  unfold size. now rewrite (Permutation_length HP).
Qed.

(** One iteration of the loop over the groups: it fails on an empty group,
    with a division by zero, and adds the two contributions otherwise. *)
Lemma anova_step_cases (overall_mean ss_between ss_within : R) (group : list R) :
  (group = [] /\
   anova_step overall_mean (ss_between, ss_within) group = Err ZeroDivisionError)
  \/ (group <> [] /\
      anova_step overall_mean (ss_between, ss_within) group
      = Ok (ss_between + size group * (mean_of group - overall_mean) ^ 2,
            ss_within + sq_dev (mean_of group) group)).
Proof.
  unfold anova_step. destruct group as [| x xs].
  - left. split; [reflexivity |]. now rewrite arithmetic_mean_nil.
  - right. split; [discriminate |].
    rewrite arithmetic_mean_ok by discriminate. cbn [bind].
    now rewrite fold_left_sq_dev, IZR_len.
Qed.

(** Two consecutive iterations can be exchanged. *)
Lemma anova_step_swap (overall_mean : R) (st : R * R) (g h : list R) :
  (s <- anova_step overall_mean st g ;; anova_step overall_mean s h)
  = (s <- anova_step overall_mean st h ;; anova_step overall_mean s g).
Proof.
  destruct st as [b w].
  destruct (anova_step_cases overall_mean b w g) as [[Hg Eg] | [Hg Eg]],
           (anova_step_cases overall_mean b w h) as [[Hh Eh] | [Hh Eh]];
    rewrite Eg, Eh; cbn [bind]; try reflexivity.
  - match goal with |- _ = anova_step _ (?b', ?w') _ =>
      destruct (anova_step_cases overall_mean b' w' g) as [[_ E] | [H _]];
        [now rewrite E | contradiction]
    end.
  - match goal with |- anova_step _ (?b', ?w') _ = _ =>
      destruct (anova_step_cases overall_mean b' w' h) as [[_ E] | [H _]];
        [now rewrite E | contradiction]
    end.
  - match goal with |- anova_step _ (?b1, ?w1) _ = anova_step _ (?b2, ?w2) _ =>
      destruct (anova_step_cases overall_mean b1 w1 h) as [[H _] | [_ E1]];
        [contradiction |];
      destruct (anova_step_cases overall_mean b2 w2 g) as [[H _] | [_ E2]];
        [contradiction |];
      rewrite E1, E2
    end.
    f_equal. f_equal; lra.
Qed.

(** The loop over the groups does not depend on their order. *)
Lemma anova_loop_Permutation (overall_mean : R) (gs gs' : list (list R)) :
  Permutation gs gs' ->
  forall st, for_each (anova_step overall_mean) gs st
             = for_each (anova_step overall_mean) gs' st.
Proof.
  intros HP. induction HP as [| g gs gs' _ IH | g h gs | gs gs' gs'' _ IH1 _ IH2];
    intros st; cbn [for_each].
  - reflexivity.
  - destruct (anova_step overall_mean st g); cbn [bind]; [apply IH | reflexivity].
  - pose proof (anova_step_swap overall_mean st h g) as Hswap.
    destruct (anova_step overall_mean st h) as [s1 | e1],
             (anova_step overall_mean st g) as [s2 | e2]; cbn [bind] in *.
    + destruct (anova_step overall_mean s1 g), (anova_step overall_mean s2 h);
        cbn [bind]; congruence.
    + destruct (anova_step overall_mean s1 g); cbn [bind]; congruence.
    + destruct (anova_step overall_mean s2 h); cbn [bind]; congruence.
    + congruence.
  - now rewrite IH1.
Qed.

(** [one_way_anova] has the same outcome on the groups in any order. *)
Lemma one_way_anova_Permutation (cdf_f : R -> Z -> Z -> R) (gs gs' : list (list R)) :
  Permutation gs gs' -> one_way_anova cdf_f gs = one_way_anova cdf_f gs'.
Proof.
  intros HP. unfold one_way_anova.
  rewrite !all_data_concat. cbn [app].
  pose proof (concat_Permutation _ _ HP) as HC.
  rewrite (arithmetic_mean_Permutation _ _ HC).
  destruct (arithmetic_mean (concat gs')) as [om | e]; cbn [bind]; [| reflexivity].
  rewrite (anova_loop_Permutation om _ _ HP).
  unfold len. now rewrite (Permutation_length HP), (Permutation_length HC).
Qed.

(** The loop over non-empty groups returns the two sums of squares. *)
Lemma anova_loop_ok (overall_mean : R) (groups : list (list R))
    (ss_between ss_within : R) :
  Forall (fun g => g <> []) groups ->
  for_each (anova_step overall_mean) groups (ss_between, ss_within)
  = Ok (ss_between
        + Rsum (map (fun g => size g * (mean_of g - overall_mean) ^ 2) groups),
        ss_within + SSW groups).
Proof.
  intros Hall. revert ss_between ss_within.
  induction Hall as [| g groups Hg Hall IH]; intros b w; cbn [for_each map].
  - unfold SSW. cbn [map]. rewrite !Rsum_nil. now rewrite !Rplus_0_r.
  - destruct (anova_step_cases overall_mean b w g) as [[H _] | [_ E]];
      [contradiction |].
    rewrite E. cbn [bind]. rewrite IH.
    unfold SSW. cbn [map]. rewrite !Rsum_cons. f_equal. f_equal; lra.
Qed.

(** [one_way_anova] on two or more non-empty groups with df_within > 0:
    nothing fails before the last division, which is by SSW / df_within. *)
Lemma one_way_anova_steps (cdf_f : R -> Z -> Z -> R) (groups : list (list R)) :
  (2 <= List.length groups)%nat ->
  Forall (fun g => g <> []) groups ->
  (0 < len (concat groups) - len groups)%Z ->
  one_way_anova cdf_f groups
  = (F <- py_div (SSB groups / IZR (len groups - 1))
                 (SSW groups / IZR (len (concat groups) - len groups)) ;;
     Ok (F, 1 - cdf_f F (len groups - 1)%Z (len (concat groups) - len groups)%Z)).
Proof.
  intros Hn Hall Hdf. unfold one_way_anova.
  rewrite all_data_concat. cbn [app].
  assert (Hne : concat groups <> []).
  { destruct groups as [| g gs]; [cbn in Hn; lia |].
    inversion Hall as [| ? ? Hg _]; subst.
    destruct g; [congruence | discriminate]. }
  rewrite (arithmetic_mean_ok _ Hne). cbn [bind].
  rewrite (anova_loop_ok _ _ _ _ Hall). cbn [bind].
  rewrite !Rplus_0_l. fold (SSB groups).
  assert (IZR (len groups - 1) <> 0) by (apply not_0_IZR; unfold len; lia).
  assert (IZR (len (concat groups) - len groups) <> 0) by (apply not_0_IZR; lia).
  rewrite !py_div_ok by assumption. cbn [bind]. reflexivity.
Qed.

Lemma size_Permutation {X : Type} (xs ys : list X) :
  Permutation xs ys -> size xs = size ys.
Proof. intros HP. unfold size. now rewrite (Permutation_length HP). Qed.

Lemma mean_of_Permutation (xs ys : list R) :
  Permutation xs ys -> mean_of xs = mean_of ys.
Proof.
  intros HP. unfold mean_of.
  now rewrite (Rsum_Permutation _ _ HP), (size_Permutation _ _ HP).
Qed.

Lemma SSW_Permutation (m m' : list (list R)) :
  Permutation m m' -> SSW m = SSW m'.
Proof.
  intros HP. unfold SSW.
  apply Rsum_Permutation. now apply Permutation_map.
Qed.

Lemma SSB_Permutation (gs gs' : list (list R)) :
  Permutation gs gs' -> SSB gs = SSB gs'.
Proof.
  intros HP. unfold SSB.
  rewrite (mean_of_Permutation _ _ (concat_Permutation _ _ HP)).
  apply Rsum_Permutation. now apply Permutation_map.
Qed.

Lemma anova_F_Permutation (gs gs' : list (list R)) :
  Permutation gs gs' ->
  df_between gs = df_between gs' /\ df_within gs = df_within gs'
  /\ anova_F gs = anova_F gs'.
Proof.
  intros HP.
  assert (Hb : df_between gs = df_between gs').
  { unfold df_between, len. now rewrite (Permutation_length HP). }
  assert (Hw : df_within gs = df_within gs').
  { unfold df_within, len.
    now rewrite (Permutation_length HP),
      (Permutation_length (concat_Permutation _ _ HP)). }
  split; [assumption | split; [assumption |]].
  unfold anova_F.
  now rewrite (SSB_Permutation _ _ HP), (SSW_Permutation _ _ HP), Hb, Hw.
Qed.

(** C6, as stated, fails of the floats returned: the sums of squares are
    accumulated in the order of the groups and each addition rounds.
    [one_way_anova([1, 2, 4], [3, 4, 6])] returns F = 2.5714285714285707,
    and with the two groups exchanged F = 2.5714285714285703, one unit in
    the last place below. *)
Lemma one_way_anova_order_binary64 :
  Permutation [[1; 2; 4]; [3; 4; 6]]%float [[3; 4; 6]; [1; 2; 4]]%float
  /\ (forall cdf_f : float -> Z -> Z -> float,
        Binary64.one_way_anova cdf_f [[1; 2; 4]; [3; 4; 6]]%float
        = Ok (0x1.4924924924923p+1,
              1 - cdf_f 0x1.4924924924923p+1 1%Z 4%Z)%float
        /\ Binary64.one_way_anova cdf_f [[3; 4; 6]; [1; 2; 4]]%float
           = Ok (0x1.4924924924922p+1,
                 1 - cdf_f 0x1.4924924924922p+1 1%Z 4%Z)%float)
  /\ (0x1.4924924924922p+1 <? 0x1.4924924924923p+1)%float = true.
Proof.
  split; [apply perm_swap |]. split; [| reflexivity].
  intros cdf_f. split; reflexivity.
Qed.

(** C6, amended.  For two or more non-empty groups with df_within > 0, the
    decomposition that [one_way_anova] evaluates does not depend on the
    order of the groups: SSB, SSW, df_between and df_within, and with them
    the quantities F = (SSB/df_between)/(SSW/df_within) and
    p = 1 - CDF_F(F, df_between, df_within), are the same for the groups in
    any order, and when SSW is not 0 both calls return this F and this p.
    (The floats returned are rounded evaluations of F and p, accumulated in
    the order of the groups, and can differ in their last digits.) *)
Theorem one_way_anova_order_invariant (cdf_f : R -> Z -> Z -> R)
    (groups groups' : list (list R)) :
  (2 <= List.length groups)%nat ->
  Forall (fun g => g <> []) groups ->
  (0 < df_within groups)%Z ->
  Permutation groups groups' ->
  SSB groups' = SSB groups /\ SSW groups' = SSW groups
  /\ df_between groups' = df_between groups
  /\ df_within groups' = df_within groups
  /\ anova_F groups' = anova_F groups
  /\ (SSW groups <> 0 ->
      one_way_anova cdf_f groups
      = Ok (anova_F groups,
            1 - cdf_f (anova_F groups) (df_between groups) (df_within groups))
      /\ one_way_anova cdf_f groups'
         = Ok (anova_F groups,
               1 - cdf_f (anova_F groups) (df_between groups) (df_within groups))).
Proof.
  intros Hn Hall Hdf HP.
  destruct (anova_F_Permutation _ _ HP) as (Hb & Hw & HF).
  split; [symmetry; now apply SSB_Permutation |].
  split; [symmetry; now apply SSW_Permutation |].
  split; [now symmetry |]. split; [now symmetry |]. split; [now symmetry |].
  intros Hne.
  rewrite <- (one_way_anova_Permutation cdf_f _ _ HP).
  rewrite (one_way_anova_steps cdf_f groups Hn Hall Hdf).
  fold (df_between groups) (df_within groups).
  rewrite py_div_ok.
  - cbn [bind]. fold (anova_F groups). split; reflexivity.
  - apply IZR_lt in Hdf. unfold Rdiv.
    apply Rmult_integral_contrapositive_currified;
      [assumption | apply Rinv_neq_0_compat; lra].
Qed.

Lemma one_way_anova_order_invariant_witness :
  SSB [[30; 32; 34]; [10; 12; 14]; [20; 22; 24]]
  = SSB [[10; 12; 14]; [20; 22; 24]; [30; 32; 34]]
  /\ SSW [[30; 32; 34]; [10; 12; 14]; [20; 22; 24]]
     = SSW [[10; 12; 14]; [20; 22; 24]; [30; 32; 34]]
  /\ df_between [[30; 32; 34]; [10; 12; 14]; [20; 22; 24]]
     = df_between [[10; 12; 14]; [20; 22; 24]; [30; 32; 34]]
  /\ df_within [[30; 32; 34]; [10; 12; 14]; [20; 22; 24]]
     = df_within [[10; 12; 14]; [20; 22; 24]; [30; 32; 34]]
  /\ anova_F [[30; 32; 34]; [10; 12; 14]; [20; 22; 24]]
     = anova_F [[10; 12; 14]; [20; 22; 24]; [30; 32; 34]]
  /\ (SSW [[10; 12; 14]; [20; 22; 24]; [30; 32; 34]] <> 0 ->
      one_way_anova (fun _ _ _ => 1) [[10; 12; 14]; [20; 22; 24]; [30; 32; 34]]
      = Ok (anova_F [[10; 12; 14]; [20; 22; 24]; [30; 32; 34]],
            1 - (fun (_ : R) (_ _ : Z) => 1)
                  (anova_F [[10; 12; 14]; [20; 22; 24]; [30; 32; 34]])
                  (df_between [[10; 12; 14]; [20; 22; 24]; [30; 32; 34]])
                  (df_within [[10; 12; 14]; [20; 22; 24]; [30; 32; 34]]))
      /\ one_way_anova (fun _ _ _ => 1)
           [[30; 32; 34]; [10; 12; 14]; [20; 22; 24]]
         = Ok (anova_F [[10; 12; 14]; [20; 22; 24]; [30; 32; 34]],
               1 - (fun (_ : R) (_ _ : Z) => 1)
                     (anova_F [[10; 12; 14]; [20; 22; 24]; [30; 32; 34]])
                     (df_between [[10; 12; 14]; [20; 22; 24]; [30; 32; 34]])
                     (df_within [[10; 12; 14]; [20; 22; 24]; [30; 32; 34]]))).
Proof.
  apply (one_way_anova_order_invariant (fun _ _ _ => 1)
           [[10; 12; 14]; [20; 22; 24]; [30; 32; 34]]
           [[30; 32; 34]; [10; 12; 14]; [20; 22; 24]]).
  - cbn. lia.
  - repeat constructor; discriminate.
  - reflexivity.
  - apply Permutation_sym.
    apply (Permutation_cons_append [[10; 12; 14]; [20; 22; 24]] [30; 32; 34]).
Defined.

(** ** Repeated measures ANOVA *)

(** A comprehension whose element expression returns on every element. *)
Lemma map_result_ok {X Y : Type} (f : X -> result Y) (g : X -> Y) (xs : list X) :
  (forall x, In x xs -> f x = Ok (g x)) -> map_result f xs = Ok (map g xs).
Proof.
  induction xs as [| x xs IH]; intros Hf; cbn [map_result map].
  - reflexivity.
  - rewrite (Hf x) by now left. cbn [bind].
    rewrite IH by (intros y Hy; apply Hf; now right). reflexivity.
Qed.

(** An accumulating loop whose body returns on every element. *)
Lemma for_each_acc {X : Type} (body : R -> X -> result R) (g : X -> R)
    (xs : list X) (s : R) :
  (forall x s', In x xs -> body s' x = Ok (s' + g x)) ->
  for_each body xs s = Ok (s + Rsum (map g xs)).
Proof.
  revert s. induction xs as [| x xs IH]; intros s Hbody; cbn [for_each map].
  - rewrite Rsum_nil. now rewrite Rplus_0_r.
  - rewrite (Hbody x s) by now left. cbn [bind].
    rewrite IH by (intros y s' Hy; apply Hbody; now right).
    rewrite Rsum_cons. f_equal. lra.
Qed.

Lemma index_ok {X : Type} (xs : list X) (i : nat) (d : X) :
  (i < List.length xs)%nat -> index xs i = Ok (nth i xs d).
Proof.
  intros Hi. unfold index.
  now rewrite (nth_error_nth' xs d Hi).
Qed.

(** Reading a list through its indices gives the list back. *)
Lemma map_nth_range {X Y : Type} (f : X -> Y) (xs : list X) (d : X) :
  map (fun i => f (nth i xs d)) (seq 0 (List.length xs)) = map f xs.
Proof.
  induction xs as [| x xs IH]; [reflexivity |].
  cbn [List.length seq map nth]. f_equal.
  rewrite <- seq_shift, map_map. exact IH.
Qed.

Lemma rectangular_nth (k : nat) (data_matrix : list (list R)) (i : nat) :
  rectangular k data_matrix -> (i < List.length data_matrix)%nat ->
  List.length (nth i data_matrix []) = k.
Proof.
  intros Hrect Hi. unfold rectangular in Hrect. rewrite Forall_forall in Hrect.
  apply Hrect. now apply nth_In.
Qed.

(** [data_matrix[i][j]] inside a rectangular matrix. *)
Lemma cell_ok (k : nat) (data_matrix : list (list R)) (i j : nat) :
  rectangular k data_matrix ->
  (i < List.length data_matrix)%nat -> (j < k)%nat ->
  cell data_matrix i j = Ok (nth j (nth i data_matrix []) 0).
Proof.
  intros Hrect Hi Hj. unfold cell.
  rewrite (index_ok data_matrix i []) by assumption. cbn [bind].
  apply index_ok. now rewrite (rectangular_nth k).
Qed.

Lemma concat_nonempty (k : nat) (data_matrix : list (list R)) :
  rectangular k data_matrix -> (1 <= List.length data_matrix)%nat -> (1 <= k)%nat ->
  concat data_matrix <> [].
Proof.
  intros Hrect Hn Hk. destruct data_matrix as [| row rows]; [cbn in Hn; lia |].
  inversion Hrect as [| ? ? Hrow _]; subst.
  destruct row; [cbn in Hk; lia | discriminate].
Qed.

(** The comprehension of line 176. *)
Lemma subject_means_ok (k : nat) (data_matrix : list (list R)) :
  rectangular k data_matrix -> (1 <= k)%nat ->
  map_result arithmetic_mean data_matrix = Ok (map mean_of data_matrix).
Proof.
  intros Hrect Hk. apply map_result_ok. intros row Hrow.
  apply arithmetic_mean_ok.
  unfold rectangular in Hrect. rewrite Forall_forall in Hrect.
  specialize (Hrect row Hrow). destruct row; [cbn in Hrect; lia | discriminate].
Qed.

(** The loop of lines 180-182. *)
Lemma condition_means_ok (k : nat) (data_matrix : list (list R)) :
  rectangular k data_matrix -> (1 <= List.length data_matrix)%nat ->
  map_result
    (fun j =>
       col <- map_result (fun i => cell data_matrix i j)
                (seq 0 (List.length data_matrix)) ;;
       arithmetic_mean col)
    (seq 0 k)
  = Ok (map (fun j => mean_of (column j data_matrix)) (seq 0 k)).
Proof.
  intros Hrect Hn. apply map_result_ok. intros j Hj.
  apply in_seq in Hj.
  rewrite (map_result_ok _ (fun i => nth j (nth i data_matrix []) 0)).
  2:{ intros i Hi. apply in_seq in Hi. apply (cell_ok k); [assumption | lia | lia]. }
  cbn [bind].
  rewrite (map_nth_range (fun row => nth j row 0) data_matrix []).
  fold (column j data_matrix).
  apply arithmetic_mean_ok.
  unfold column. destruct data_matrix; [cbn in Hn; lia | discriminate].
Qed.

(** The loops of lines 185-188. *)
Lemma ss_subjects_ok (k : nat) (data_matrix : list (list R)) :
  rectangular k data_matrix ->
  for_each
    (fun ss_subjects i =>
       for_each
         (fun ss_subjects j =>
            x <- cell data_matrix i j ;;
            m <- index (map mean_of data_matrix) i ;;
            Ok (ss_subjects + (x - m) ^ 2))
         (seq 0 k) ss_subjects)
    (seq 0 (List.length data_matrix)) 0
  = Ok (SS_subjects data_matrix).
Proof.
  intros Hrect.
  rewrite (for_each_acc _
             (fun i => sq_dev (mean_of (nth i data_matrix []))
                         (nth i data_matrix []))).
  - rewrite (map_nth_range (fun row => sq_dev (mean_of row) row) data_matrix []).
    unfold SS_subjects, SSW. now rewrite Rplus_0_l.
  - intros i s Hi. apply in_seq in Hi.
    pose proof (rectangular_nth k data_matrix i Hrect ltac:(lia)) as Hlen.
    rewrite (for_each_acc _
               (fun j => (nth j (nth i data_matrix []) 0
                          - mean_of (nth i data_matrix [])) ^ 2)).
    + rewrite <- Hlen at 1.
      rewrite (map_nth_range
                 (fun x => (x - mean_of (nth i data_matrix [])) ^ 2)
                 (nth i data_matrix []) 0).
      reflexivity.
    + intros j s' Hj. apply in_seq in Hj.
      rewrite (cell_ok k) by (assumption || lia). cbn [bind].
      rewrite (index_ok _ i (mean_of [])) by (rewrite length_map; lia).
      cbn [bind]. now rewrite (map_nth mean_of).
Qed.

(** The loop of lines 191-193. *)
Lemma ss_conditions_ok (k : nat) (data_matrix : list (list R)) (overall_mean : R) :
  for_each
    (fun ss_conditions j =>
       c <- index (map (fun j => mean_of (column j data_matrix)) (seq 0 k)) j ;;
       Ok (ss_conditions
           + IZR (Z.of_nat (List.length data_matrix)) * (c - overall_mean) ^ 2))
    (seq 0 k) 0
  = Ok (size data_matrix *
        Rsum (map (fun j => (mean_of (column j data_matrix) - overall_mean) ^ 2)
                  (seq 0 k))).
Proof.
  rewrite (for_each_acc _
             (fun j => size data_matrix
                       * (mean_of (column j data_matrix) - overall_mean) ^ 2)).
  - f_equal. rewrite Rplus_0_l.
    generalize (seq 0 k). intros js. induction js as [| j js IH]; cbn [map].
    + rewrite !Rsum_nil. lra.
    + rewrite !Rsum_cons, IH. lra.
  - intros j s Hj. apply in_seq in Hj.
    rewrite (index_ok _ j 0) by (rewrite length_map, length_seq; lia).
    cbn [bind].
    rewrite (nth_indep _ 0 (mean_of (column 0 data_matrix)))
      by (rewrite length_map, length_seq; lia).
    rewrite (map_nth (fun j => mean_of (column j data_matrix))).
    rewrite seq_nth by lia. cbn [Nat.add].
    unfold size. now rewrite <- INR_IZR_INZ.
Qed.

(** On a rectangular matrix with at least two rows and two columns nothing
    fails before the last division, which is by [SS_error / df_error]. *)
Lemma repeated_measures_anova_steps (cdf_f : R -> Z -> Z -> R)
    (data_matrix : list (list R)) (n k : nat) :
  List.length data_matrix = n -> rectangular k data_matrix ->
  (2 <= n)%nat -> (2 <= k)%nat ->
  repeated_measures_anova cdf_f data_matrix
  = (F <- py_div (SS_conditions k data_matrix / IZR (df_conditions k))
                 (SS_error k data_matrix / IZR (df_error n k)) ;;
     Ok (F, 1 - cdf_f F (df_conditions k) (df_error n k))).
Proof.
  intros Hn Hrect Hn2 Hk2. unfold repeated_measures_anova.
  rewrite (index_ok data_matrix 0 []) by lia. cbn [bind].
  rewrite (rectangular_nth k data_matrix 0 Hrect) by lia.
  rewrite flat_map_concat_map, map_id.
  rewrite arithmetic_mean_ok by (apply (concat_nonempty k); assumption || lia).
  cbn [bind].
  rewrite (subject_means_ok k) by (assumption || lia). cbn [bind].
  rewrite (condition_means_ok k) by (assumption || lia). cbn [bind].
  rewrite (ss_subjects_ok k) by assumption. cbn [bind].
  rewrite ss_conditions_ok. cbn [bind].
  fold (SS_conditions k data_matrix). fold (SS_error k data_matrix).
  rewrite Hn. fold (df_conditions k). fold (df_error n k).
  assert (Hdc : IZR (df_conditions k) <> 0).
  { apply not_0_IZR. unfold df_conditions. lia. }
  assert (Hde : IZR (df_error n k) <> 0).
  { apply not_0_IZR. unfold df_error. nia. }
  rewrite !py_div_ok by assumption. cbn [bind]. reflexivity.
Qed.


Lemma SS_error_test_matrix :
  SS_error 3 [[10; 12; 14]; [11; 15; 13]; [9; 11; 16]] = 40 / 3.
Proof.
  eval_stats. field.
Qed.




(** ** The runs of test.py *)

Example arithmetic_mean_test : arithmetic_mean [10; 20; 30; 40; 50] = Ok 30.
Proof.
  rewrite arithmetic_mean_ok by discriminate. f_equal.
  eval_stats. field.
Qed.

Example harmonic_mean_test :
  harmonic_mean [10; 20; 30; 40; 50] = Ok (3000 / 137).
Proof.
  assert (Hpos : Forall (fun v => 0 < v) [10; 20; 30; 40; 50])
    by (repeat constructor; lra).
  rewrite harmonic_mean_some
    by (rewrite (filter_positive_all _ Hpos); discriminate).
  f_equal. unfold harmonic_of.
  rewrite (filter_positive_all _ Hpos).
  eval_stats. field.
Qed.

Example pooled_std_equal_groups (s : R) (n : Z) :
  0 <= s -> (2 <= n)%Z -> pooled_std [s; s] [n; n] = Ok s.
Proof.
  intros Hs Hn. rewrite pooled_std_sums by reflexivity.
  unfold weighted_squares, total_df, Rsum, Zsum.
  cbn [combine map fold_right fst snd].
  rewrite Z.add_0_r, plus_IZR, minus_IZR.
  apply IZR_le in Hn.
  rewrite py_div_ok by lra. cbn [bind].
  replace (_ / _) with (s * s) by (field; lra).
  rewrite math_sqrt_ok by nra. f_equal. now apply sqrt_square.
Qed.


Example repeated_measures_anova_test (cdf_f : R -> Z -> Z -> R) :
  repeated_measures_anova cdf_f [[10; 12; 14]; [11; 15; 13]; [9; 11; 16]]
  = Ok (43 / 10, 1 - cdf_f (43 / 10) 2%Z 4%Z).
Proof.
  set (rm_data := [[10; 12; 14]; [11; 15; 13]; [9; 11; 16]]).
  assert (Hrect : rectangular 3 rm_data) by (repeat constructor).
  rewrite (repeated_measures_anova_steps cdf_f rm_data 3 3 eq_refl Hrect) by lia.
  change (df_conditions 3) with 2%Z. change (df_error 3 3) with 4%Z.
  unfold rm_data at 2. rewrite SS_error_test_matrix.
  assert (EC : SS_conditions 3 rm_data = 86 / 3).
  { unfold rm_data. eval_stats. field. }
  rewrite EC. rewrite py_div_ok by lra. cbn [bind].
  replace (86 / 3 / 2 / (40 / 3 / 4)) with (43 / 10) by field. reflexivity.
Qed.

Example t_test_test (cdf_t : R -> Z -> R) :
  exists t p,
    t_test cdf_t (Some [10; 12; 14; 16; 18]) (Some [20; 22; 24; 26; 28])
      None None None None None None "arithmetic"
    = Ok (t, p)
    /\ t < 0.
Proof.
  set (group1 := [10; 12; 14; 16; 18]). set (group2 := [20; 22; 24; 26; 28]).
  assert (Hm1 : mean_of group1 = 14).
  { unfold group1. eval_stats. field. }
  assert (Hm2 : mean_of group2 = 24).
  { unfold group2. eval_stats. field. }
  assert (Hs1 : population_std group1 = sqrt 8).
  { unfold population_std. rewrite Hm1. f_equal.
    unfold group1. eval_stats. field. }
  assert (Hs2 : population_std group2 = sqrt 8).
  { unfold population_std. rewrite Hm2. f_equal.
    unfold group2. eval_stats. field. }
  rewrite (t_test_raw cdf_t group1 group2 None None None None None None
             "arithmetic" 14 24 (sqrt 8) (sqrt 8)).
  2,3: unfold selected_mean; cbn [String.eqb Ascii.eqb Bool.eqb];
       rewrite arithmetic_mean_ok by discriminate; congruence.
  2,3: rewrite standard_deviation_ok by discriminate; congruence.
  change (len group1) with 5%Z. change (len group2) with 5%Z.
  rewrite t_test_summary_steps by lia.
  assert (H8 : 0 < sqrt 8) by (apply sqrt_lt_R0; lra).
  assert (Hps : pooled_squares (sqrt 8) (sqrt 8) 5 5 <> 0).
  { unfold pooled_squares. nra. }
  pose proof (pooled_se_pos _ _ 5 5 ltac:(lia) ltac:(lia) ltac:(lia) Hps) as Hsp.
  pose proof (sqrt_lt_R0 _ (inv_sizes_pos 5 5 ltac:(lia) ltac:(lia))) as Hs.
  pose proof (Rmult_lt_0_compat _ _ Hsp Hs) as Hden.
  rewrite py_div_ok by lra. cbn [bind].
  eexists. eexists. split; [reflexivity |].
  apply Rinv_0_lt_compat in Hden. unfold Rdiv. nra.
Qed.

(** * Further properties of the library *)

(** ** [harmonic_mean]: the samples it ignores *)


(** [harmonic_mean] in one expression. *)
Lemma harmonic_mean_value (data : list R) :
  harmonic_mean data
  = Ok (match filter positive data with [] => 0 | _ :: _ => harmonic_of data end).
Proof.
  destruct (filter positive data) as [| y ys] eqn:E.
  - now apply harmonic_mean_none.
  - apply harmonic_mean_some. rewrite E. discriminate.
Qed.

(** X5.  A sample that is zero or negative has no effect on the harmonic
    mean: removing it from anywhere in the sequence leaves the outcome
    unchanged. *)
Theorem harmonic_mean_ignores_nonpositive (before after : list R) (x : R) :
  x <= 0 ->
  harmonic_mean (before ++ x :: after) = harmonic_mean (before ++ after).
Proof.
  intros Hx. rewrite !harmonic_mean_value. unfold harmonic_of.
  rewrite !filter_app. cbn [filter].
  apply positive_false in Hx. now rewrite Hx.
Qed.

Lemma harmonic_mean_ignores_nonpositive_witness :
  harmonic_mean ([10; 20] ++ -5 :: [30]) = harmonic_mean ([10; 20] ++ [30]).
Proof.
  apply (harmonic_mean_ignores_nonpositive [10; 20] [30] (-5)). lra.
Defined.

(** ** Sums of squared deviations *)



(** ** [pooled_std]: lists of unequal lengths *)

Lemma combine_app_l {X Y : Type} (xs extra : list X) (ys : list Y) :
  List.length xs = List.length ys -> combine (xs ++ extra) ys = combine xs ys.
Proof.
  revert ys. induction xs as [| x xs IH]; intros [| y ys] Hlen;
    try discriminate Hlen; cbn [app combine].
  - now destruct extra.
  - f_equal. apply IH. cbn in Hlen. lia.
Qed.

Lemma combine_app_r {X Y : Type} (xs : list X) (ys extra : list Y) :
  List.length xs = List.length ys -> combine xs (ys ++ extra) = combine xs ys.
Proof.
  revert ys. induction xs as [| x xs IH]; intros [| y ys] Hlen;
    try discriminate Hlen; cbn [app combine].
  - reflexivity.
  - f_equal. apply IH. cbn in Hlen. lia.
Qed.

(** X9.  [pooled_std] reads its two lists in step and stops at the end of
    the shorter one: entries of either list beyond the length of the other
    have no effect on the outcome, and raise nothing. *)
Theorem pooled_std_ignores_surplus (std_list extra_std : list R)
    (n_list extra_n : list Z) :
  List.length std_list = List.length n_list ->
  pooled_std (std_list ++ extra_std) n_list = pooled_std std_list n_list
  /\ pooled_std std_list (n_list ++ extra_n) = pooled_std std_list n_list.
Proof.
  intros Hlen. unfold pooled_std.
  now rewrite (combine_app_l _ extra_std _ Hlen), (combine_app_r _ _ extra_n Hlen).
Qed.

Lemma pooled_std_ignores_surplus_witness :
  pooled_std ([10; 12] ++ [99]) [30%Z; 35%Z] = pooled_std [10; 12] [30%Z; 35%Z]
  /\ pooled_std [10; 12] ([30%Z; 35%Z] ++ [0%Z; 7%Z])
     = pooled_std [10; 12] [30%Z; 35%Z].
Proof.
  apply (pooled_std_ignores_surplus [10; 12] [99] [30%Z; 35%Z] [0%Z; 7%Z]).
  reflexivity.
Defined.

(** ** [t_test]: exchange of the groups, sign of the statistic *)

Lemma bind_Ok {A B : Type} (m : result A) (k : A -> result B) (b : B) :
  bind m k = Ok b -> exists a, m = Ok a /\ k a = Ok b.
Proof.
  destruct m as [a | e]; cbn [bind]; [| discriminate].
  intros H. now exists a.
Qed.

Lemma py_div_Ok (a b c : R) : py_div a b = Ok c -> b <> 0 /\ c = a / b.
Proof.
  unfold py_div. destruct (Req_dec_T b 0); [discriminate |].
  intros H. injection H as <-. now split.
Qed.

Lemma math_sqrt_Ok (x y : R) : math_sqrt x = Ok y -> 0 <= x /\ y = sqrt x.
Proof.
  unfold math_sqrt. destruct (Rlt_dec x 0); [discriminate |].
  intros H. injection H as <-. split; [lra | reflexivity].
Qed.

Lemma arg_Ok {X : Type} (o : option X) (x : X) : arg o = Ok x -> o = Some x.
Proof. destruct o; cbn; [intros H; now injection H as -> | discriminate]. Qed.

Lemma py_div_opp (a b : R) :
  py_div (- a) b = (t <- py_div a b ;; Ok (- t)).
Proof.
  unfold py_div. destruct (Req_dec_T b 0); cbn [bind]; [reflexivity |].
  f_equal. field. assumption.
Qed.

(** Lines 101-112 with the two groups exchanged. *)
Lemma t_test_summary_swap (cdf_t : R -> Z -> R)
    (mu1 mu2 sigma1 sigma2 : option R) (n1 n2 : option Z) :
  t_test_summary cdf_t mu2 mu1 sigma2 sigma1 n2 n1
  = ('(t, p) <- t_test_summary cdf_t mu1 mu2 sigma1 sigma2 n1 n2 ;; Ok (- t, p)).
Proof.
  unfold t_test_summary.
  destruct n1 as [n1 |], n2 as [n2 |]; cbn [arg bind]; try reflexivity.
  replace (n2 + n1 - 2)%Z with (n1 + n2 - 2)%Z by lia.
  destruct sigma1 as [sigma1 |], sigma2 as [sigma2 |]; cbn [arg bind];
    try reflexivity.
  replace (IZR (n2 - 1) * sigma2 ^ 2 + IZR (n1 - 1) * sigma1 ^ 2)
    with (IZR (n1 - 1) * sigma1 ^ 2 + IZR (n2 - 1) * sigma2 ^ 2) by lra.
  destruct (py_div _ (IZR (n1 + n2 - 2))) as [q | e]; cbn [bind]; [| reflexivity].
  destruct (math_sqrt q) as [sp | e]; cbn [bind]; [| reflexivity].
  destruct mu1 as [mu1 |], mu2 as [mu2 |]; cbn [arg bind]; try reflexivity.
  unfold py_div at 1 2 4 5.
  destruct (Req_dec_T (IZR n1) 0), (Req_dec_T (IZR n2) 0); cbn [bind];
    try reflexivity.
  replace (1 / IZR n2 + 1 / IZR n1) with (1 / IZR n1 + 1 / IZR n2) by lra.
  destruct (math_sqrt (1 / IZR n1 + 1 / IZR n2)) as [s | e]; cbn [bind];
    [| reflexivity].
  replace (mu2 - mu1) with (- (mu1 - mu2)) by lra.
  rewrite py_div_opp.
  destruct (py_div (mu1 - mu2) (sp * s)) as [t | e]; cbn [bind]; [| reflexivity].
  now rewrite Rabs_Ropp.
Qed.

(** X11.  Exchanging the two groups of [t_test] (the data and every summary
    argument) negates t and leaves p unchanged; a call that fails still
    fails, with the same error. *)
Theorem t_test_swap (cdf_t : R -> Z -> R) (data1 data2 : option (list R))
    (mu1 mu2 sigma1 sigma2 : option R) (n1 n2 : option Z) (mean_type : string) :
  t_test cdf_t data2 data1 mu2 mu1 sigma2 sigma1 n2 n1 mean_type
  = ('(t, p) <- t_test cdf_t data1 data2 mu1 mu2 sigma1 sigma2 n1 n2 mean_type ;;
     Ok (- t, p)).
Proof.
  unfold t_test.
  destruct data1 as [data1 |], data2 as [data2 |];
    try apply t_test_summary_swap.
  assert (Hsel : forall data : list R,
             (if String.eqb mean_type "harmonic"
              then harmonic_mean data else arithmetic_mean data)
             = selected_mean mean_type data)
    by (intros data; unfold selected_mean; now destruct (String.eqb _ _)).
  assert (Hpre : forall d d' : list R,
             (if String.eqb mean_type "harmonic"
              then (mu1 <- harmonic_mean d ;; mu2 <- harmonic_mean d' ;; Ok (mu1, mu2))
              else (mu1 <- arithmetic_mean d ;; mu2 <- arithmetic_mean d' ;; Ok (mu1, mu2)))
             = (m <- selected_mean mean_type d ;;
                m' <- selected_mean mean_type d' ;; Ok (m, m')))
    by (intros d d'; unfold selected_mean; now destruct (String.eqb _ _)).
  rewrite !Hpre. clear Hpre Hsel.
  destruct data1 as [| x xs], data2 as [| y ys].
  - destruct (selected_mean mean_type []); cbn [bind];
      now rewrite ?standard_deviation_nil.
  - destruct (selected_mean_total mean_type (y :: ys) ltac:(discriminate)) as [m Hm].
    rewrite Hm. cbn [bind].
    rewrite (standard_deviation_ok (y :: ys)) by discriminate.
    destruct (selected_mean mean_type []) as [m0 | e] eqn:E0; cbn [bind].
    + now rewrite standard_deviation_nil.
    + unfold selected_mean in E0. destruct (String.eqb _ _).
      * destruct (harmonic_mean_total []) as [v Hv]. congruence.
      * rewrite arithmetic_mean_nil in E0. now injection E0 as <-.
  - destruct (selected_mean_total mean_type (x :: xs) ltac:(discriminate)) as [m Hm].
    rewrite Hm. cbn [bind].
    rewrite (standard_deviation_ok (x :: xs)) by discriminate.
    destruct (selected_mean mean_type []) as [m0 | e] eqn:E0; cbn [bind].
    + now rewrite standard_deviation_nil.
    + unfold selected_mean in E0. destruct (String.eqb _ _).
      * destruct (harmonic_mean_total []) as [v Hv]. congruence.
      * rewrite arithmetic_mean_nil in E0. now injection E0 as <-.
  - destruct (selected_mean_total mean_type (x :: xs) ltac:(discriminate)) as [m1 Hm1].
    destruct (selected_mean_total mean_type (y :: ys) ltac:(discriminate)) as [m2 Hm2].
    rewrite Hm1, Hm2. cbn [bind].
    rewrite !standard_deviation_ok by discriminate. cbn [bind].
    apply t_test_summary_swap.
Qed.

(** Whenever lines 101-112 return, the divisor of line 107 is positive. *)
Lemma t_test_summary_Ok (cdf_t : R -> Z -> R)
    (mu1 mu2 sigma1 sigma2 : option R) (n1 n2 : option Z) (t p : R) :
  t_test_summary cdf_t mu1 mu2 sigma1 sigma2 n1 n2 = Ok (t, p) ->
  exists m1 m2 d,
    mu1 = Some m1 /\ mu2 = Some m2 /\ 0 < d /\ t = (m1 - m2) / d.
Proof.
  unfold t_test_summary. intros H.
  apply bind_Ok in H. destruct H as (k1 & _ & H).
  apply bind_Ok in H. destruct H as (k2 & _ & H).
  apply bind_Ok in H. destruct H as (s1 & _ & H).
  apply bind_Ok in H. destruct H as (s2 & _ & H).
  apply bind_Ok in H. destruct H as (q & _ & H).
  apply bind_Ok in H. destruct H as (sp & Hsp & H).
  apply bind_Ok in H. destruct H as (m1 & Hm1 & H).
  apply bind_Ok in H. destruct H as (m2 & Hm2 & H).
  apply bind_Ok in H. destruct H as (r1 & _ & H).
  apply bind_Ok in H. destruct H as (r2 & _ & H).
  apply bind_Ok in H. destruct H as (s & Hs & H).
  apply bind_Ok in H. destruct H as (t' & Ht & H).
  injection H as <- _.
  apply math_sqrt_Ok in Hsp. destruct Hsp as [_ ->].
  apply math_sqrt_Ok in Hs. destruct Hs as [_ ->].
  apply py_div_Ok in Ht. destruct Ht as [Hd ->].
  exists m1, m2, (sqrt q * sqrt (r1 + r2)).
  repeat split; try now apply arg_Ok.
  pose proof (sqrt_pos q). pose proof (sqrt_pos (r1 + r2)).
  assert (0 <= sqrt q * sqrt (r1 + r2)) by now apply Rmult_le_pos.
  lra.
Qed.

Lemma quotient_sign (a d : R) :
  0 < d ->
  (a / d < 0 <-> a < 0) /\ (a / d = 0 <-> a = 0) /\ (0 < a / d <-> 0 < a).
Proof.
  intros Hd. pose proof (Rinv_0_lt_compat d Hd) as Hi.
  assert (E : a = a / d * d) by (field; lra).
  unfold Rdiv in *. repeat split; intros H; nra.
Qed.

(** X12.  Whenever [t_test] on summary statistics returns, the sign of t is
    the sign of mu1 - mu2: t is negative exactly when mu1 < mu2, zero exactly
    when the means are equal, positive exactly when mu1 > mu2. *)
Theorem t_test_summary_sign (cdf_t : R -> Z -> R) (mu1 mu2 : R)
    (sigma1 sigma2 : option R) (n1 n2 : option Z) (mean_type : string) (t p : R) :
  t_test cdf_t None None (Some mu1) (Some mu2) sigma1 sigma2 n1 n2 mean_type
  = Ok (t, p) ->
  (t < 0 <-> mu1 < mu2) /\ (t = 0 <-> mu1 = mu2) /\ (0 < t <-> mu2 < mu1).
Proof.
  unfold t_test. intros H.
  apply t_test_summary_Ok in H.
  destruct H as (m1 & m2 & d & E1 & E2 & Hd & ->).
  injection E1 as <-. injection E2 as <-.
  destruct (quotient_sign (mu1 - mu2) d Hd) as (Hneg & Hzero & Hpos).
  rewrite Hneg, Hzero, Hpos. repeat split; intros; lra.
Qed.

Lemma t_test_summary_sign_witness :
  (t_statistic 14 24 3 3 5 5 < 0 <-> 14 < 24)
  /\ (t_statistic 14 24 3 3 5 5 = 0 <-> 14 = 24)
  /\ (0 < t_statistic 14 24 3 3 5 5 <-> 24 < 14).
Proof.
  apply (t_test_summary_sign (fun _ _ => 1) 14 24 (Some 3) (Some 3)
           (Some 5%Z) (Some 5%Z) "arithmetic" (t_statistic 14 24 3 3 5 5)
           (two_tailed_p (fun _ _ => 1) (t_statistic 14 24 3 3 5 5) (t_df 5 5))).
  unfold t_test. rewrite t_test_summary_steps by lia.
  rewrite py_div_ok; [reflexivity |].
  assert (Hps : pooled_squares 3 3 5 5 <> 0) by (unfold pooled_squares; lra).
  pose proof (pooled_se_pos 3 3 5 5 ltac:(lia) ltac:(lia) ltac:(lia) Hps).
  pose proof (sqrt_lt_R0 _ (inv_sizes_pos 5 5 ltac:(lia) ltac:(lia))).
  assert (0 < pooled_se 3 3 5 5 * sqrt (1 / IZR 5 + 1 / IZR 5))
    by now apply Rmult_lt_0_compat.
  lra.
Defined.

(** Lines 87-99 when [t_test] on raw data returns. *)
Lemma t_test_raw_Ok (cdf_t : R -> Z -> R) (data1 data2 : list R)
    (a1 a2 b1 b2 : option R) (c1 c2 : option Z) (mean_type : string) (t p : R) :
  t_test cdf_t (Some data1) (Some data2) a1 a2 b1 b2 c1 c2 mean_type = Ok (t, p) ->
  exists m1 m2 s1 s2,
    selected_mean mean_type data1 = Ok m1
    /\ selected_mean mean_type data2 = Ok m2
    /\ standard_deviation data1 = Ok s1
    /\ standard_deviation data2 = Ok s2
    /\ t_test_summary cdf_t (Some m1) (Some m2) (Some s1) (Some s2)
         (Some (len data1)) (Some (len data2)) = Ok (t, p).
Proof.
  unfold t_test, selected_mean. intros H.
  apply bind_Ok in H. destruct H as ([m1 m2] & Hm & H).
  apply bind_Ok in H. destruct H as (s1 & Hs1 & H).
  apply bind_Ok in H. destruct H as (s2 & Hs2 & H).
  exists m1, m2, s1, s2.
  destruct (String.eqb mean_type "harmonic");
    apply bind_Ok in Hm; destruct Hm as (x1 & Hx1 & Hm);
    apply bind_Ok in Hm; destruct Hm as (x2 & Hx2 & Hm);
    injection Hm as <- <-; auto.
Qed.

(** X13.  Whenever [t_test] on raw data returns, the sign of t is the sign
    of the difference of the two means it computed (arithmetic, or harmonic
    when [mean_type] is "harmonic"): t is negative exactly when the mean of
    [data1] is below the mean of [data2]. *)
Theorem t_test_raw_sign (cdf_t : R -> Z -> R) (data1 data2 : list R)
    (mu1 mu2 sigma1 sigma2 : option R) (n1 n2 : option Z)
    (mean_type : string) (t p : R) :
  t_test cdf_t (Some data1) (Some data2) mu1 mu2 sigma1 sigma2 n1 n2 mean_type
  = Ok (t, p) ->
  exists m1 m2,
    selected_mean mean_type data1 = Ok m1
    /\ selected_mean mean_type data2 = Ok m2
    /\ (t < 0 <-> m1 < m2) /\ (t = 0 <-> m1 = m2) /\ (0 < t <-> m2 < m1).
Proof.
  intros H. apply t_test_raw_Ok in H.
  destruct H as (m1 & m2 & s1 & s2 & Hm1 & Hm2 & _ & _ & H).
  exists m1, m2. split; [assumption | split; [assumption |]].
  apply t_test_summary_Ok in H.
  destruct H as (m1' & m2' & d & E1 & E2 & Hd & ->).
  injection E1 as <-. injection E2 as <-.
  destruct (quotient_sign (m1 - m2) d Hd) as (Hneg & Hzero & Hpos).
  rewrite Hneg, Hzero, Hpos. repeat split; intros; lra.
Qed.

Lemma t_test_raw_sign_witness :
  exists t m1 m2,
    selected_mean "arithmetic" [10; 12; 14; 16; 18] = Ok m1
    /\ selected_mean "arithmetic" [20; 22; 24; 26; 28] = Ok m2
    /\ (t < 0 <-> m1 < m2) /\ (t = 0 <-> m1 = m2) /\ (0 < t <-> m2 < m1).
Proof.
  destruct (t_test_test (fun _ _ => 1)) as (t & p & H & _).
  exists t.
  apply (t_test_raw_sign (fun _ _ => 1) [10; 12; 14; 16; 18] [20; 22; 24; 26; 28]
           None None None None None None "arithmetic" t p H).
Defined.

(** ** [t_test] on raw data: how it fails *)






(** ** [one_way_anova]: how it fails, and the sign of F *)












(** ** [repeated_measures_anova]: how it fails *)

(** A comprehension fails with the error of its element expression when that
    is the only error the expression has and some element raises it. *)
Lemma map_result_Err {X Y : Type} (f : X -> result Y) (xs : list X) (e : PyError) :
  (forall x, In x xs -> f x = Err e \/ exists y, f x = Ok y) ->
  (exists x, In x xs /\ f x = Err e) ->
  map_result f xs = Err e.
Proof.
  induction xs as [| x xs IH]; intros Hf (x0 & Hin & Hx0); [destruct Hin |].
  cbn [map_result].
  destruct (Hf x (or_introl eq_refl)) as [E | [y E]]; rewrite E; cbn [bind];
    [reflexivity |].
  rewrite IH; [reflexivity | intros z Hz; apply Hf; now right |].
  destruct Hin as [<- | Hin]; [congruence | now exists x0].
Qed.

Lemma map_result_length {X Y : Type} (f : X -> result Y) (xs : list X) (ys : list Y) :
  map_result f xs = Ok ys -> List.length ys = List.length xs.
Proof.
  revert ys. induction xs as [| x xs IH]; intros ys H; cbn [map_result] in H.
  - injection H as <-. reflexivity.
  - apply bind_Ok in H. destruct H as (y & _ & H).
    apply bind_Ok in H. destruct H as (ys' & Hys & H).
    injection H as <-. cbn [List.length]. f_equal. now apply IH.
Qed.

Lemma index_cases {X : Type} (xs : list X) (i : nat) :
  ((i < List.length xs)%nat /\ exists x, index xs i = Ok x)
  \/ ((List.length xs <= i)%nat /\ index xs i = Err IndexError).
Proof.
  unfold index. destruct (nth_error xs i) as [x |] eqn:E.
  - left. split; [apply nth_error_Some; congruence | now exists x].
  - right. split; [now apply nth_error_None | reflexivity].
Qed.

(** A column of a matrix without empty rows is read in full, or the read
    fails with an index out of range on a row that is too short. *)
Lemma column_read (data_matrix : list (list R)) (j : nat) :
  ((forall row, In row data_matrix -> (j < List.length row)%nat)
   /\ exists col,
        map_result (fun i => cell data_matrix i j)
          (seq 0 (List.length data_matrix)) = Ok col)
  \/ ((exists row, In row data_matrix /\ (List.length row <= j)%nat)
      /\ map_result (fun i => cell data_matrix i j)
           (seq 0 (List.length data_matrix)) = Err IndexError).
Proof.
  assert (Hcell : forall i, (i < List.length data_matrix)%nat ->
            cell data_matrix i j = index (nth i data_matrix []) j).
  { intros i Hi. unfold cell. now rewrite (index_ok data_matrix i []). }
  assert (Hdec : (forall row, In row data_matrix -> (j < List.length row)%nat)
                 \/ exists row, In row data_matrix /\ (List.length row <= j)%nat).
  { induction data_matrix as [| row rows IH]; [left; intros r [] |].
    destruct (le_lt_dec (List.length row) j) as [Hle | Hlt].
    - right. exists row. split; [now left | assumption].
    - destruct IH as [IH | (r & Hr & Hle)].
      + intros i Hi. unfold cell.
        now rewrite (index_ok rows i []).
      + left. intros r [<- | Hr]; [assumption | now apply IH].
      + right. exists r. split; [now right | assumption]. }
  destruct Hdec as [Hall | (row & Hrow & Hle)].
  - left. split; [assumption |].
    exists (map (fun i => nth j (nth i data_matrix []) 0)
              (seq 0 (List.length data_matrix))).
    apply map_result_ok. intros i Hi. apply in_seq in Hi.
    rewrite Hcell by lia. apply index_ok. apply Hall. apply nth_In. lia.
  - right. split; [now exists row |].
    apply map_result_Err.
    + intros i Hi. apply in_seq in Hi. rewrite Hcell by lia.
      destruct (index_cases (nth i data_matrix []) j) as [[_ [x E]] | [_ E]];
        [right; now exists x | now left].
    + destruct (In_nth data_matrix row [] Hrow) as (i & Hi & Hnth).
      exists i. split; [apply in_seq; lia |].
      rewrite Hcell by assumption. rewrite Hnth.
      destruct (index_cases row j) as [[Hlt _] | [_ E]]; [lia | assumption].
Qed.

Lemma arithmetic_mean_cases (data : list R) :
  arithmetic_mean data = Err ZeroDivisionError
  \/ exists m, arithmetic_mean data = Ok m.
Proof.
  destruct data as [| x xs].
  - left. apply arithmetic_mean_nil.
  - right. exists (mean_of (x :: xs)). apply arithmetic_mean_ok. discriminate.
Qed.

(** X19.  The shapes [repeated_measures_anova] rejects: the empty matrix
    fails with an index out of range; a matrix with an empty row fails with a
    division by zero; a matrix without empty rows in which some row is
    shorter than the first fails with an index out of range. *)
Theorem repeated_measures_anova_shape_errors (cdf_f : R -> Z -> Z -> R) :
  repeated_measures_anova cdf_f [] = Err IndexError
  /\ (forall data_matrix,
        data_matrix <> [] -> In [] data_matrix ->
        repeated_measures_anova cdf_f data_matrix = Err ZeroDivisionError)
  /\ (forall row0 rows,
        Forall (fun row => row <> []) (row0 :: rows) ->
        (exists row, In row rows /\ (List.length row < List.length row0)%nat) ->
        repeated_measures_anova cdf_f (row0 :: rows) = Err IndexError).
Proof.
  split; [reflexivity | split].
  - intros [| row0 rows] Hne Hin; [congruence |].
    unfold repeated_measures_anova.
    change (index (row0 :: rows) 0) with (Ok (A := list R) row0). cbn [bind].
    destruct (arithmetic_mean_cases (flat_map (fun row => row) (row0 :: rows)))
      as [E | [om E]]; rewrite E; cbn [bind]; [reflexivity |].
    rewrite (map_result_Err arithmetic_mean (row0 :: rows) ZeroDivisionError).
    + reflexivity.
    + intros row _. apply arithmetic_mean_cases.
    + exists []. split; [assumption | apply arithmetic_mean_nil].
  - intros row0 rows Hall (row & Hrow & Hshort).
    set (data_matrix := row0 :: rows) in *.
    unfold repeated_measures_anova.
    change (index data_matrix 0) with (Ok (A := list R) row0). cbn [bind].
    rewrite flat_map_concat_map, map_id.
    rewrite arithmetic_mean_ok.
    2:{ unfold data_matrix. cbn [concat].
        inversion Hall as [| ? ? H0 _]; subst.
        destruct row0; [congruence | discriminate]. }
    cbn [bind].
    rewrite (map_result_ok arithmetic_mean mean_of).
    2:{ intros r Hr. apply arithmetic_mean_ok.
        rewrite Forall_forall in Hall. now apply Hall. }
    cbn [bind].
    rewrite (map_result_Err _ (seq 0 (List.length row0)) IndexError).
    + reflexivity.
    + intros j _.
      destruct (column_read data_matrix j) as [[_ [col E]] | [_ E]];
        rewrite E; cbn [bind]; [| now left].
      right. exists (mean_of col). apply arithmetic_mean_ok.
      apply map_result_length in E. rewrite length_seq in E.
      destruct col; [discriminate E | discriminate].
    + exists (List.length row). split; [apply in_seq; lia |].
      destruct (column_read data_matrix (List.length row)) as [[Hlong _] | [_ E]].
      * specialize (Hlong row (or_intror Hrow)). lia.
      * now rewrite E.
Qed.

Lemma repeated_measures_anova_shape_errors_witness :
  repeated_measures_anova (fun _ _ _ => 1) [[1; 2]; []; [3; 4]]
  = Err ZeroDivisionError
  /\ repeated_measures_anova (fun _ _ _ => 1) [[1; 2; 3]; [4; 5]; [6; 7; 8]]
     = Err IndexError.
Proof.
  destruct (repeated_measures_anova_shape_errors (fun _ _ _ => 1))
    as (_ & Hempty & Hshort).
  split.
  - apply Hempty; [discriminate | right; now left].
  - apply Hshort.
    + repeat constructor; discriminate.
    + exists [4; 5]. split; [now left | cbn; lia].
Defined.

(** On a rectangular matrix with a row and a column [repeated_measures_anova]
    reaches its three divisions. *)
Lemma repeated_measures_anova_divisions (cdf_f : R -> Z -> Z -> R)
    (data_matrix : list (list R)) (n k : nat) :
  List.length data_matrix = n -> rectangular k data_matrix ->
  (1 <= n)%nat -> (1 <= k)%nat ->
  repeated_measures_anova cdf_f data_matrix
  = (ms_conditions <- py_div (SS_conditions k data_matrix) (IZR (df_conditions k)) ;;
     ms_error <- py_div (SS_error k data_matrix) (IZR (df_error n k)) ;;
     F <- py_div ms_conditions ms_error ;;
     Ok (F, 1 - cdf_f F (df_conditions k) (df_error n k))).
Proof.
  intros Hn Hrect Hn1 Hk1. unfold repeated_measures_anova.
  rewrite (index_ok data_matrix 0 []) by lia. cbn [bind].
  rewrite (rectangular_nth k data_matrix 0 Hrect) by lia.
  rewrite flat_map_concat_map, map_id.
  rewrite arithmetic_mean_ok by (apply (concat_nonempty k); assumption || lia).
  cbn [bind].
  rewrite (subject_means_ok k) by (assumption || lia). cbn [bind].
  rewrite (condition_means_ok k) by (assumption || lia). cbn [bind].
  rewrite (ss_subjects_ok k) by assumption. cbn [bind].
  rewrite ss_conditions_ok. cbn [bind].
  fold (SS_conditions k data_matrix). fold (SS_error k data_matrix).
  rewrite Hn. reflexivity.
Qed.

(** X20.  On a rectangular matrix with a single row or a single column
    [repeated_measures_anova] fails with a division by zero: a degree of
    freedom it divides by is 0. *)
Theorem repeated_measures_anova_too_small (cdf_f : R -> Z -> Z -> R)
    (data_matrix : list (list R)) (n k : nat) :
  List.length data_matrix = n -> rectangular k data_matrix ->
  (1 <= n)%nat -> (1 <= k)%nat ->
  n = 1%nat \/ k = 1%nat ->
  repeated_measures_anova cdf_f data_matrix = Err ZeroDivisionError.
Proof.
  intros Hn Hrect Hn1 Hk1 Hsmall.
  rewrite (repeated_measures_anova_divisions cdf_f _ n k Hn Hrect Hn1 Hk1).
  destruct (Nat.eq_dec k 1) as [-> | Hk].
  - change (df_conditions 1) with 0%Z. now rewrite py_div_zero.
  - destruct Hsmall as [-> | Hk']; [| contradiction].
    rewrite py_div_ok by (apply not_0_IZR; unfold df_conditions; lia).
    cbn [bind].
    replace (df_error 1 k) with 0%Z by (unfold df_error; lia).
    now rewrite py_div_zero.
Qed.

Lemma repeated_measures_anova_too_small_witness :
  repeated_measures_anova (fun _ _ _ => 1) [[10; 12; 14]] = Err ZeroDivisionError.
Proof.
  apply (repeated_measures_anova_too_small (fun _ _ _ => 1) [[10; 12; 14]] 1 3).
  - reflexivity.
  - repeat constructor.
  - lia.
  - lia.
  - now left.
Defined.

(** ** [repeated_measures_anova]: the error term is a sum of squares *)






Lemma Rsum_concat (xss : list (list R)) :
  Rsum (concat xss) = Rsum (map Rsum xss).
Proof.
  induction xss as [| xs xss IH]; cbn [concat map]; [reflexivity |].
  rewrite Rsum_cons, <- IH. clear IH.
  induction xs as [| x xs IH]; cbn [app].
  - rewrite Rsum_nil. lra.
  - rewrite !Rsum_cons, IH. lra.
Qed.

Lemma size_concat_rectangular (k : nat) (data_matrix : list (list R)) :
  rectangular k data_matrix ->
  size (concat data_matrix) = size data_matrix * INR k.
Proof.
  intros Hrect. induction Hrect as [| row rows Hrow Hrect IH]; cbn [concat].
  - rewrite !(@size_nil R), (@size_nil (list R)). lra.
  - rewrite size_cons. unfold size in *. rewrite length_app, plus_INR, IH, Hrow. lra.
Qed.


Section Residual.

Variable data_matrix : list (list R).
Variable k : nat.
Hypothesis Hrect : rectangular k data_matrix.
Hypothesis Hrows : data_matrix <> [].
Hypothesis Hcols : (1 <= k)%nat.







End Residual.



(** ** [t_test] and [one_way_anova] on the same two groups *)

Lemma population_std_pow2 (xs : list R) :
  xs <> [] -> population_std xs ^ 2 = sq_dev (mean_of xs) xs / size xs.
Proof.
  intros Hne. unfold population_std. apply pow2_sqrt.
  apply Rmult_le_pos; [apply sq_dev_nonneg |].
  left. apply Rinv_0_lt_compat. now apply size_pos.
Qed.

(** X24.  On two groups of the same size n >= 2 whose squared deviations
    from their own means add up to S, with S not 0, and with means m1 and
    m2: [t_test] on the raw data (arithmetic mean) returns
    t = n (m1 - m2) / sqrt S, and [one_way_anova] returns
    F = n (n - 1) (m1 - m2)^2 / S.  (The t-test pools the standard
    deviations that [standard_deviation] takes with the divisor n.) *)
Theorem two_groups_closed_forms (cdf_t : R -> Z -> R) (cdf_f : R -> Z -> Z -> R)
    (data1 data2 : list R) (n : nat)
    (mu1 mu2 sigma1 sigma2 : option R) (n1 n2 : option Z) (mean_type : string) :
  List.length data1 = n -> List.length data2 = n -> (2 <= n)%nat ->
  String.eqb mean_type "harmonic" = false ->
  pooled_sq_dev data1 data2 <> 0 ->
  t_test cdf_t (Some data1) (Some data2) mu1 mu2 sigma1 sigma2 n1 n2 mean_type
  = Ok (two_groups_t data1 data2,
        two_tailed_p cdf_t (two_groups_t data1 data2)
          (t_df (len data1) (len data2)))
  /\ one_way_anova cdf_f [data1; data2]
     = Ok (two_groups_F data1 data2,
           1 - cdf_f (two_groups_F data1 data2)
                 (df_between [data1; data2]) (df_within [data1; data2])).
Proof.
  intros Hl1 Hl2 Hn2 Hmt HS0.
  assert (Hne1 : data1 <> []) by (intros ->; cbn in Hl1; lia).
  assert (Hne2 : data2 <> []) by (intros ->; cbn in Hl2; lia).
  assert (Hsz1 : size data1 = INR n) by (unfold size; now rewrite Hl1).
  assert (Hsz2 : size data2 = INR n) by (unfold size; now rewrite Hl2).
  assert (HN : 2 <= INR n) by (apply (le_INR 2); assumption).
  unfold pooled_sq_dev in HS0.
  unfold two_groups_t, two_groups_F, pooled_sq_dev. rewrite Hsz1.
  set (S1 := sq_dev (mean_of data1) data1) in *.
  set (S2 := sq_dev (mean_of data2) data2) in *.
  set (D := mean_of data1 - mean_of data2).
  assert (HS : 0 < S1 + S2).
  { pose proof (sq_dev_nonneg (mean_of data1) data1).
    pose proof (sq_dev_nonneg (mean_of data2) data2). unfold S1, S2 in *. lra. }
  pose proof (sqrt_lt_R0 _ HS) as HsS.
  split.
  - (* the t-test *)
    rewrite (t_test_raw cdf_t data1 data2 mu1 mu2 sigma1 sigma2 n1 n2 mean_type
               (mean_of data1) (mean_of data2)
               (population_std data1) (population_std data2));
      try (unfold selected_mean; rewrite Hmt; now apply arithmetic_mean_ok);
      try (now apply standard_deviation_ok).
    rewrite t_test_summary_steps
      by (try (apply len_pos; assumption); unfold len; lia).
    assert (HX : pooled_squares (population_std data1) (population_std data2)
                   (len data1) (len data2) / IZR (t_df (len data1) (len data2))
                 = (S1 + S2) / (2 * INR n)).
    { unfold pooled_squares, t_df.
      rewrite minus_IZR, plus_IZR, !IZR_len, !population_std_pow2 by assumption.
      rewrite Hsz1, Hsz2. fold S1 S2. field. lra. }
    assert (HY : 1 / IZR (len data1) + 1 / IZR (len data2) = 2 / INR n).
    { rewrite !IZR_len, Hsz1, Hsz2. field. lra. }
    assert (Hden : pooled_se (population_std data1) (population_std data2)
                     (len data1) (len data2)
                   * sqrt (1 / IZR (len data1) + 1 / IZR (len data2))
                   = sqrt (S1 + S2) / INR n).
    { unfold pooled_se. rewrite HX, HY.
      rewrite <- sqrt_mult_alt
        by (apply Rmult_le_pos; [lra | left; apply Rinv_0_lt_compat; lra]).
      replace ((S1 + S2) / (2 * INR n) * (2 / INR n))
        with ((S1 + S2) / (INR n * INR n)) by (field; lra).
      rewrite sqrt_div_alt by nra.
      rewrite sqrt_square by lra. reflexivity. }
    rewrite Hden.
    assert (Hd0 : sqrt (S1 + S2) / INR n <> 0).
    { unfold Rdiv. apply Rmult_integral_contrapositive_currified;
        [lra | apply Rinv_neq_0_compat; lra]. }
    rewrite py_div_ok by assumption. cbn [bind].
    fold D.
    replace (D / (sqrt (S1 + S2) / INR n)) with (INR n * D / sqrt (S1 + S2))
      by (field; split; lra).
    reflexivity.
  - (* the analysis of variance *)
    rewrite one_way_anova_steps;
      [| cbn; lia | repeat constructor; assumption
       | unfold len; cbn [concat]; rewrite !length_app, Hl1, Hl2; cbn; lia].
    fold (df_between [data1; data2]) (df_within [data1; data2]).
    assert (Hdfb : IZR (df_between [data1; data2]) = 1) by reflexivity.
    assert (Hdfw : IZR (df_within [data1; data2]) = 2 * INR n - 2).
    { unfold df_within. rewrite minus_IZR, !IZR_len.
      rewrite (size_concat_rectangular n [data1; data2])
        by (repeat constructor; assumption).
      unfold size. cbn [List.length INR]. lra. }
    assert (HW : SSW [data1; data2] = S1 + S2).
    { unfold SSW. cbn [map]. rewrite !Rsum_cons, Rsum_nil. unfold S1, S2. lra. }
    assert (HM : mean_of (concat [data1; data2])
                 = (mean_of data1 + mean_of data2) / 2).
    { unfold mean_of at 1.
      rewrite (size_concat_rectangular n [data1; data2])
        by (repeat constructor; assumption).
      rewrite Rsum_concat. cbn [map]. rewrite !Rsum_cons, Rsum_nil.
      unfold mean_of. rewrite Hsz1, Hsz2.
      unfold size. cbn [List.length INR]. field. lra. }
    assert (HB : SSB [data1; data2] = INR n * D ^ 2 / 2).
    { unfold SSB. cbn [map]. rewrite !Rsum_cons, Rsum_nil, HM, Hsz1, Hsz2.
      unfold D. field. }
    rewrite Hdfb, Hdfw, HW, HB.
    assert (Hmsw : (S1 + S2) / (2 * INR n - 2) <> 0).
    { unfold Rdiv. apply Rmult_integral_contrapositive_currified;
        [lra | apply Rinv_neq_0_compat; lra]. }
    rewrite py_div_ok by assumption. cbn [bind].
    replace (INR n * D ^ 2 / 2 / 1 / ((S1 + S2) / (2 * INR n - 2)))
      with (INR n * (INR n - 1) * D ^ 2 / (S1 + S2))
      by (field; split; lra).
    reflexivity.
Qed.

Lemma two_groups_closed_forms_witness :
  t_test (fun _ _ => 1) (Some [10; 12; 14; 16; 18]) (Some [20; 22; 24; 26; 28])
    None None None None None None "arithmetic"
  = Ok (two_groups_t [10; 12; 14; 16; 18] [20; 22; 24; 26; 28],
        two_tailed_p (fun _ _ => 1)
          (two_groups_t [10; 12; 14; 16; 18] [20; 22; 24; 26; 28])
          (t_df (len [10; 12; 14; 16; 18]) (len [20; 22; 24; 26; 28])))
  /\ one_way_anova (fun _ _ _ => 1) [[10; 12; 14; 16; 18]; [20; 22; 24; 26; 28]]
     = Ok (two_groups_F [10; 12; 14; 16; 18] [20; 22; 24; 26; 28],
           1 - (fun (_ : R) (_ _ : Z) => 1)
                 (two_groups_F [10; 12; 14; 16; 18] [20; 22; 24; 26; 28])
                 (df_between [[10; 12; 14; 16; 18]; [20; 22; 24; 26; 28]])
                 (df_within [[10; 12; 14; 16; 18]; [20; 22; 24; 26; 28]])).
Proof.
  apply (two_groups_closed_forms (fun _ _ => 1) (fun _ _ _ => 1)
           [10; 12; 14; 16; 18] [20; 22; 24; 26; 28] 5
           None None None None None None "arithmetic"
           eq_refl eq_refl ltac:(lia) eq_refl).
  unfold pooled_sq_dev. eval_stats. lra.
Defined.
